(** * ChatBot/main.py: a Streamlit chat page over a hosted chat model

    A shallow embedding of [src/ChatBot/main.py].  Streamlit executes the
    script from top to bottom on every user interaction; the only data that
    survives from one execution to the next is [st.session_state].  One
    execution is modelled as a computation in a small monad that threads
    the session state, the page elements emitted so far, the window memory
    object of the execution and the log of chat requests, and that can end
    with a Python exception or with the rerun signal of [st.rerun()].

    Python [str] values are [string]s holding the UTF-8 bytes of the text. *)

From Stdlib Require Import List String Ascii ZArith NArith Bool Lia.
From Stdlib Require Import DecimalString.
Import ListNotations.
Open Scope string_scope.
Open Scope Z_scope.

(** ** Python string operations used by the script *)

Module PyStr.

Definition ord (c : ascii) : N := N_of_ascii c.

(** [str.isspace] holds of U+0009..U+000D, U+001C..U+0020, U+0085, U+00A0,
    U+1680, U+2000..U+200A, U+2028, U+2029, U+202F, U+205F and U+3000.
    The three predicates recognise their UTF-8 encodings of one, two and
    three bytes. *)
Definition is_space1 (a : N) : bool :=
  (((9 <=? a) && (a <=? 13)) || ((28 <=? a) && (a <=? 32)))%N.

Definition is_space2 (a b : N) : bool :=
  ((a =? 194) && ((b =? 133) || (b =? 160)))%N.

Definition is_space3 (a b c : N) : bool :=
  (((a =? 225) && (b =? 154) && (c =? 128))
   || ((a =? 226) && (b =? 128)
       && (((128 <=? c) && (c <=? 138)) || (c =? 168) || (c =? 169) || (c =? 175)))
   || ((a =? 226) && (b =? 129) && (c =? 159))
   || ((a =? 227) && (b =? 128) && (c =? 128)))%N.

(** Drops the white space at the head of a byte list.  With [back] the
    list is a reversed text, so that the bytes of a character come last
    byte first. *)
Fixpoint drop_space (back : bool) (l : list ascii) : list ascii :=
  match l with
  | [] => []
  | a :: r1 =>
      if is_space1 (ord a) then drop_space back r1 else
      match r1 with
      | [] => l
      | b :: r2 =>
          if (if back then is_space2 (ord b) (ord a)
              else is_space2 (ord a) (ord b))
          then drop_space back r2 else
          match r2 with
          | [] => l
          | c :: r3 =>
              if (if back then is_space3 (ord c) (ord b) (ord a)
                  else is_space3 (ord a) (ord b) (ord c))
              then drop_space back r3 else l
          end
      end
  end.

Definition lstrip (l : list ascii) : list ascii := drop_space false l.
Definition rstrip (l : list ascii) : list ascii :=
  rev (drop_space true (rev l)).

(** [s.strip()] *)
Definition strip (s : string) : string :=
  string_of_list_ascii (rstrip (lstrip (list_ascii_of_string s))).

(** Truth value of a [str]: non-empty. *)
Definition truthy (s : string) : bool :=
  match s with EmptyString => false | String _ _ => true end.

Definition lower_char (c : ascii) : ascii :=
  let n := ord c in
  if ((65 <=? n) && (n <=? 90))%N then ascii_of_N (n + 32) else c.

(** [s.lower()], on the ASCII letters: the script lowers only the three
    persona labels. *)
Fixpoint lower (s : string) : string :=
  match s with
  | EmptyString => EmptyString
  | String c r => String (lower_char c) (lower r)
  end.

(** [str(n)] of a Python [int]. *)
Definition str_int (n : Z) : string := NilZero.string_of_int (Z.to_int n).

(** [sep.join(parts)] *)
Fixpoint join (sep : string) (parts : list string) : string :=
  match parts with
  | [] => ""
  | [p] => p
  | p :: rest => p ++ sep ++ join sep rest
  end.

(** [l[i:]] of a Python list, negative [i] counting from the end. *)
Definition slice_from {A : Type} (i : Z) (l : list A) : list A :=
  let n := Z.of_nat (List.length l) in
  let start := if i <? 0 then Z.max 0 (n + i) else Z.min i n in
  skipn (Z.to_nat start) l.

End PyStr.

(** ** Data of the page *)

(** The options of the persona select box (line 127). *)
Inductive persona : Type := Default | Expert | Creative.

Definition persona_label (p : persona) : string :=
  match p with
  | Default => "Default"
  | Expert => "Expert"
  | Creative => "Creative"
  end.

(** The options of the model select box (line 111). *)
Inductive model_name : Type :=
  gemma2_9b_it | mixtral_8x7b_32768 | llama2_70b_4096.

Definition model_label (m : model_name) : string :=
  match m with
  | gemma2_9b_it => "gemma2-9b-it"
  | mixtral_8x7b_32768 => "mixtral-8x7b-32768"
  | llama2_70b_4096 => "llama2-70b-4096"
  end.

(** An entry of [chat_history]: the dict with the keys 'human' and 'AI'. *)
Record message : Type := { human : string; AI : string }.

(** A [datetime], in microseconds. *)
Definition datetime : Type := Z.

(** [timedelta.seconds]: the seconds of a normalised difference, without
    its days and microseconds. *)
Definition seconds (duration : Z) : Z := (duration / 1000000) mod 86400.

(** Audio data, as its bytes. *)
Definition audio : Type := string.

(** The keys of [st.session_state] the script uses.  [start_time] is
    [None] for Python's None; [selected_persona] is [None] while the key is
    absent (it is read with [.get] and a default). *)
Record session_state : Type := {
  chat_history : list message;
  total_messages : Z;
  start_time : option datetime;
  selected_persona : option persona;
  user_input : string
}.

(** The four buttons.  [st.button] is true in the one execution that its
    click triggers, so at most one button is pressed in an execution. *)
Inductive button : Type :=
  ClearChatHistory | UseVoiceInput | Send | NewTopic.

Definition button_eqb (a b : button) : bool :=
  match a, b with
  | ClearChatHistory, ClearChatHistory
  | UseVoiceInput, UseVoiceInput
  | Send, Send
  | NewTopic, NewTopic => true
  | _, _ => false
  end.

(** What the browser holds when an execution starts: the values of the
    select boxes, of the slider and of the text area, and the button whose
    click started the execution, if one did. *)
Record widgets : Type := {
  w_model : model_name;
  w_memory_length : Z;
  w_persona : persona;
  w_user_input : string;
  w_clicked : option button
}.

Definition st_button (w : widgets) (b : button) : bool :=
  match w_clicked w with
  | Some c => button_eqb c b
  | None => false
  end.

(** Python exceptions derived from [Exception]: the three classes of
    [speech_recognition] the script names, and any other one. *)
Inductive exn_class : Type :=
  WaitTimeoutError | UnknownValueError | RequestError | OtherException.

Record exn : Type := { class_of : exn_class; str_of : string }.

(** The services behind the page during one execution: the clock, the
    microphone, the speech recogniser, the speech synthesiser and the chat
    completion service, each answering or raising. *)
Record environment : Type := {
  now : datetime;
  microphone : option exn;
  listen : exn + audio;
  recognize_google : audio -> exn + string;
  gTTS : string -> exn + audio;
  groq : model_name -> string -> exn + string
}.

(** Elements written to the page, in the order of the calls.  The side
    bar, the columns and the containers only place elements and are not
    kept; the input widgets are in [widgets]. *)
Inductive element : Type :=
| st_title (body : string)
| st_subheader (body : string)
| st_metric (label value : string)
| st_info (body : string)
| st_warning (body : string)
| st_error (body : string)
| st_success (body : string)
| st_write (body : string)
| st_audio (data : audio) (format : string)
| st_markdown (body : string) (unsafe_allow_html : bool)
| st_spinner (body : string).

(** ** The window memory and the conversation chain *)

Module LangChain.

Inductive base_message : Type :=
| HumanMessage (content : string)
| AIMessage (content : string).

(** Modelled from the spec: langchain's [ConversationBufferWindowMemory]
    is imported by the script and is not under src/.  The spec describes
    it as the memory window, the last N turns replayed as context on
    every request.  The model follows the class: [save_context] appends
    the human and the AI message of a turn, [buffer] is
    [messages[-k * 2:] if k > 0 else []], [clear] empties the messages. *)
Record ConversationBufferWindowMemory : Type := {
  k : Z;
  messages : list base_message
}.

Definition new_memory (k : Z) : ConversationBufferWindowMemory :=
  {| k := k; messages := [] |}.

(** Modelled from the spec: [save_context] of the window memory, which is
    not under src/; a turn is a human input and an assistant output. *)
Definition save_context (input output : string)
    (memory : ConversationBufferWindowMemory) : ConversationBufferWindowMemory :=
  {| k := k memory;
     messages := messages memory ++ [HumanMessage input; AIMessage output] |}.

(** Modelled from the spec: the part of the window memory that is
    replayed, [messages[-k * 2:] if k > 0 else []] in the class. *)
Definition buffer (memory : ConversationBufferWindowMemory) : list base_message :=
  if k memory >? 0 then PyStr.slice_from (- k memory * 2) (messages memory)
  else [].

(** Modelled from the spec: [clear] of the window memory. *)
Definition clear (memory : ConversationBufferWindowMemory) : ConversationBufferWindowMemory :=
  {| k := k memory; messages := [] |}.

Definition newline : string := String (ascii_of_nat 10) "".

(** [get_buffer_string]: one line per message, with its role. *)
Definition message_line (m : base_message) : string :=
  match m with
  | HumanMessage content => "Human: " ++ content
  | AIMessage content => "AI: " ++ content
  end.

Definition get_buffer_string (l : list base_message) : string :=
  PyStr.join newline (map message_line l).

(** A prompt template, split at its two placeholders. *)
Inductive piece : Type :=
| Lit (s : string)
| Var_history
| Var_input.

Record PromptTemplate : Type := { template : list piece }.

Definition format_piece (history input : string) (p : piece) : string :=
  match p with
  | Lit s => s
  | Var_history => history
  | Var_input => input
  end.

Definition format (p : PromptTemplate) (history input : string) : string :=
  String.concat "" (map (format_piece history input) (template p)).

Record ConversationChain : Type := {
  llm : model_name;
  prompt : PromptTemplate
}.

End LangChain.
Import LangChain.

(** A request sent to the chat completion service and its answer:
    the context is the part of the memory that was replayed. *)
Record exchange : Type := {
  x_model : model_name;
  x_context : list base_message;
  x_input : string;
  x_prompt : string;
  x_answer : exn + string
}.

(** ** The script monad *)

Record run_state : Type := {
  session : session_state;
  page : list element;
  exchanges : list exchange
}.

(** How a piece of script ends: with a value, with a Python exception, or
    with the rerun signal, which Streamlit derives from [BaseException]
    and which [except Exception] therefore lets through. *)
Inductive res (A : Type) : Type :=
| Val (a : A)
| Raise (e : exn)
| RerunException.
Arguments Val {A} a.
Arguments Raise {A} e.
Arguments RerunException {A}.

Definition script (A : Type) : Type := run_state -> res A * run_state.

Definition ret {A : Type} (a : A) : script A := fun s => (Val a, s).

Definition bind {A B : Type} (m : script A) (f : A -> script B) : script B :=
  fun s =>
    match m s with
    | (Val a, s') => f a s'
    | (Raise e, s') => (Raise e, s')
    | (RerunException, s') => (RerunException, s')
    end.

Declare Scope script_scope.
Delimit Scope script_scope with script.
Notation "x <- m ;; f" := (bind m (fun x => f))
  (at level 61, m at next level, right associativity) : script_scope.
Notation "m ;; f" := (bind m (fun _ => f))
  (at level 61, right associativity) : script_scope.
Open Scope script_scope.

Definition raise {A : Type} (e : exn) : script A := fun s => (Raise e, s).

(** [st.rerun()] *)
Definition st_rerun {A : Type} : script A := fun s => (RerunException, s).

(** A call of a service. *)
Definition call {A : Type} (r : exn + A) : script A :=
  match r with
  | inl e => raise e
  | inr a => ret a
  end.

(** [try: body  except <classes> as e: handler e]: an exception for which
    [handlers] has no clause goes on. *)
Definition try_except {A : Type} (body : script A)
    (handlers : exn -> option (script A)) : script A :=
  fun s =>
    match body s with
    | (Raise e, s') =>
        match handlers e with
        | Some handler => handler s'
        | None => (Raise e, s')
        end
    | r => r
    end.

(** [except Exception as e] *)
Definition except_Exception {A : Type} (handler : exn -> script A)
    : exn -> option (script A) :=
  fun e => Some (handler e).

Definition emit (e : element) : script unit :=
  fun s => (Val tt, {| session := session s;
                       page := page s ++ [e];
                       exchanges := exchanges s |}).

Definition log (x : exchange) : script unit :=
  fun s => (Val tt, {| session := session s;
                       page := page s;
                       exchanges := exchanges s ++ [x] |}).

Definition get_session : script session_state :=
  fun s => (Val (session s), s).

Definition update_session (f : session_state -> session_state) : script unit :=
  fun s => (Val tt, {| session := f (session s);
                       page := page s;
                       exchanges := exchanges s |}).

Definition set_chat_history (h : list message) (st : session_state) : session_state :=
  {| chat_history := h;
     total_messages := total_messages st;
     start_time := start_time st;
     selected_persona := selected_persona st;
     user_input := user_input st |}.

Definition set_start_time (t : option datetime) (st : session_state) : session_state :=
  {| chat_history := chat_history st;
     total_messages := total_messages st;
     start_time := t;
     selected_persona := selected_persona st;
     user_input := user_input st |}.

Definition set_selected_persona (p : persona) (st : session_state) : session_state :=
  {| chat_history := chat_history st;
     total_messages := total_messages st;
     start_time := start_time st;
     selected_persona := Some p;
     user_input := user_input st |}.

Definition set_user_input (t : string) (st : session_state) : session_state :=
  {| chat_history := chat_history st;
     total_messages := total_messages st;
     start_time := start_time st;
     selected_persona := selected_persona st;
     user_input := t |}.

(** [chat_history.append(m)] *)
Definition append_chat_history (m : message) (st : session_state) : session_state :=
  set_chat_history (chat_history st ++ [m]) st.

Fixpoint for_each {A : Type} (l : list A) (body : A -> script unit) : script unit :=
  match l with
  | [] => ret tt
  | a :: rest => body a ;; for_each rest body
  end.

(** ** The functions of the script *)

(** [initialize_session_state] (lines 25-32).  The three keys are created
    together and never deleted, so a session has all of them or, before
    its first execution, none: [None] is the session without keys. *)
Definition initialize_session_state (st : option session_state) : session_state :=
  match st with
  | Some st => st
  | None =>
      {| chat_history := [];
         total_messages := 0;
         start_time := None;
         selected_persona := None;
         user_input := "" |}
  end.

(** The table [personas] of [get_custom_prompt] (lines 38-57). *)
Definition personas (p : persona) : list piece :=
  match p with
  | Default =>
      [Lit "You are a helpful AI assistant.
                     Current conversation:
                     "; Var_history;
       Lit "
                     Human: "; Var_input;
       Lit "
                     AI:"]
  | Expert =>
      [Lit "You are an expert consultant with deep knowledge across multiple fields.
                    Please provide detailed, technical responses when appropriate.
                    Current conversation:
                    "; Var_history;
       Lit "
                    Human: "; Var_input;
       Lit "
                    Expert:"]
  | Creative =>
      [Lit "You are a creative and imaginative AI that thinks outside the box.
                      Feel free to use metaphors and analogies in your responses.
                      Current conversation:
                      "; Var_history;
       Lit "
                      Human: "; Var_input;
       Lit "
                      Creative AI:"]
  end.

(** [st.session_state.get('selected_persona', 'Default')] *)
Definition get_selected_persona (st : session_state) : persona :=
  match selected_persona st with
  | Some p => p
  | None => Default
  end.

(** [get_custom_prompt] (lines 34-62) *)
Definition get_custom_prompt : script PromptTemplate :=
  st <- get_session ;;
  let persona := get_selected_persona st in
  ret {| template := personas persona |}.

(** [display_chat_statistics] (lines 64-73) *)
Definition display_chat_statistics (env : environment) : script unit :=
  st <- get_session ;;
  match start_time st with
  | Some t =>
      let duration := now env - t in
      emit (st_subheader "📊 Chat Statistics") ;;
      emit (st_metric "Messages"
              (PyStr.str_int (Z.of_nat (List.length (chat_history st))))) ;;
      emit (st_metric "Duration"
              (PyStr.str_int (seconds duration / 60) ++ "m "
               ++ PyStr.str_int (seconds duration mod 60) ++ "s"))
  | None => ret tt
  end.

(** [get_voice_input] (lines 75-90).  The value of the [try] block is
    [Some text] when the block returns [text], and [None] when one of the
    three handlers ran, after which the function returns the empty
    string. *)
Definition get_voice_input (env : environment) : script string :=
  match microphone env with Some e => raise e | None => ret tt end ;;
  emit (st_info "🎙️ Speak now...") ;;
  r <- try_except
         (audio <- call (listen env) ;;
          text <- call (recognize_google env audio) ;;
          ret (Some text))
         (fun e =>
            match class_of e with
            | WaitTimeoutError =>
                Some (emit (st_warning "⏳ Listening timed out. Please try again.") ;;
                      ret None)
            | UnknownValueError =>
                Some (emit (st_warning "⚠️ Could not understand the audio. Please try again.") ;;
                      ret None)
            | RequestError =>
                Some (emit (st_error ("⚠️ Could not request results from the speech recognition service: "
                                      ++ str_of e)) ;;
                      ret None)
            | OtherException => None
            end) ;;
  match r with
  | Some text => ret text
  | None => ret ""
  end.

(** [text_to_audio] (lines 92-98) *)
Definition text_to_audio (env : environment) (text : string) : script audio :=
  call (gTTS env text).

(** Modelled from the spec: the call [conversation(input)] of langchain's
    [ConversationChain], which is not under src/.  By the spec the request
    is the model identifier and the prompt text built from the persona
    template, the bounded history and the new input, and the response is
    the assistant text or an error.  The chain reads the window of the
    memory, formats the prompt, calls the model and, when the model
    answered, saves the turn in the memory. *)
Definition conversation (env : environment) (chain : ConversationChain)
    (memory : ConversationBufferWindowMemory) (input : string)
    : script (string * ConversationBufferWindowMemory) :=
  let history := buffer memory in
  let text := format (prompt chain) (get_buffer_string history) input in
  let answer := groq env (llm chain) text in
  log {| x_model := llm chain;
         x_context := history;
         x_input := input;
         x_prompt := text;
         x_answer := answer |} ;;
  response <- call answer ;;
  ret (response, save_context input response memory).

(** The widget [st.text_area(..., key="user_input")] (line 184): it
    returns the value under its key [user_input], where Streamlit put the
    text of the browser before the script started (see [main]). *)
Definition st_text_area : script string :=
  st <- get_session ;;
  ret (user_input st).

Definition dquote : string := String (ascii_of_nat 34) "".

Definition footer_html : string :=
  "
      <div>
        <p style=" ++ dquote ++ "color:#777770; font-size: 18px;" ++ dquote
  ++ ">🤖 Built by Kunal Pusdekar 🚀</p>
      </div>
    ".

(** The side bar of [main] (lines 104-138). *)
Definition sidebar (env : environment) (w : widgets) : script unit :=
  emit (st_title "🛠️ Chat Settings") ;;
  emit (st_subheader "Model Selection") ;;
  emit (st_subheader "Memory Settings") ;;
  emit (st_subheader "AI Persona") ;;
  update_session (set_selected_persona (w_persona w)) ;;
  display_chat_statistics env ;;
  if st_button w ClearChatHistory then
    update_session (set_chat_history []) ;;
    update_session (set_start_time None) ;;
    update_session (set_user_input "") ;;
    st_rerun
  else ret tt.

(** The loop that loads the chat history into the memory (lines 158-162). *)
Definition load_chat_history (history : list message)
    (memory : ConversationBufferWindowMemory) : ConversationBufferWindowMemory :=
  fold_left (fun memory message =>
               save_context (human message) (AI message) memory)
            history memory.

(** The loop that displays the chat history (lines 165-178).  The key
    [selected_persona] it reads was assigned in the side bar. *)
Definition display_chat_history (env : environment) (history : list message)
    : script unit :=
  for_each history (fun message =>
    emit (st_write "👤 You") ;;
    emit (st_info (human message)) ;;
    st <- get_session ;;
    emit (st_write ("🤖 Assistant (" ++ persona_label (get_selected_persona st)
                    ++ " mode)")) ;;
    emit (st_success (AI message)) ;;
    audio <- text_to_audio env (AI message) ;;
    emit (st_audio audio "audio/mp3") ;;
    emit (st_write "")).

(** The body shared by the two send paths (lines 197-206 and 212-221):
    the chat call, the append and the rerun, under [except Exception]. *)
Definition ask (env : environment) (chain : ConversationChain)
    (memory : ConversationBufferWindowMemory) (input : string)
    : script ConversationBufferWindowMemory :=
  emit (st_spinner "🤔 Thinking...") ;;
  try_except
    (response <- conversation env chain memory input ;;
     update_session
       (append_chat_history {| human := input; AI := fst response |}) ;;
     st_rerun)
    (except_Exception (fun e =>
       emit (st_error ("⚠️ Error: " ++ str_of e)) ;;
       ret memory)).

(** The voice button (lines 194-206). *)
Definition voice_input_button (env : environment) (w : widgets)
    (chain : ConversationChain) (memory : ConversationBufferWindowMemory)
    : script ConversationBufferWindowMemory :=
  if st_button w UseVoiceInput then
    voice_input <- get_voice_input env ;;
    if PyStr.truthy voice_input then ask env chain memory voice_input
    else ret memory
  else ret memory.

(** The send button (lines 209-221). *)
Definition send_button (env : environment) (w : widgets)
    (chain : ConversationChain) (memory : ConversationBufferWindowMemory)
    (user_input : string) : script ConversationBufferWindowMemory :=
  if st_button w Send && PyStr.truthy (PyStr.strip user_input) then
    st <- get_session ;;
    match start_time st with
    | None => update_session (set_start_time (Some (now env)))
    | Some _ => ret tt
    end ;;
    ask env chain memory user_input
  else ret memory.

(** The new topic button (lines 224-226). *)
Definition new_topic_button (w : widgets)
    (memory : ConversationBufferWindowMemory)
    : script ConversationBufferWindowMemory :=
  if st_button w NewTopic then
    let memory := clear memory in
    emit (st_success "Memory cleared for new topic!") ;;
    ret memory
  else ret memory.

(** The footer (lines 229-239). *)
Definition footer (w : widgets) : script unit :=
  st <- get_session ;;
  emit (st_markdown "---" false) ;;
  emit (st_markdown
          ("Using Groq AI with "
           ++ PyStr.lower (persona_label (get_selected_persona st)) ++ " persona | "
           ++ "Memory: " ++ PyStr.str_int (w_memory_length w) ++ " messages") false) ;;
  emit (st_markdown footer_html true).

(** [main] (lines 100-239), after [initialize_session_state].  [memory] is
    the local object of line 145; the script returns it so that its final
    contents can be observed. *)
Definition main_script (env : environment) (w : widgets)
    : script ConversationBufferWindowMemory :=
  sidebar env w ;;
  emit (st_title "🤖 Groq Chat Assistant") ;;
  let memory := new_memory (w_memory_length w) in
  prompt <- get_custom_prompt ;;
  let chain := {| llm := w_model w; prompt := prompt |} in
  st <- get_session ;;
  let memory := load_chat_history (chat_history st) memory in
  display_chat_history env (chat_history st) ;;
  emit (st_markdown "### 💭 Your Message" false) ;;
  user_input <- st_text_area ;;
  memory <- voice_input_button env w chain memory ;;
  memory <- send_button env w chain memory user_input ;;
  memory <- new_topic_button w memory ;;
  footer w ;;
  ret memory.

(** One execution of the script, from the session state Streamlit kept.
    Before the script starts Streamlit puts the value of a keyed widget
    under its key: the text of the text area is under [user_input] from
    the first line on, also in an execution that ends before line 184. *)
Definition main (env : environment) (w : widgets) (st : option session_state)
    : res ConversationBufferWindowMemory * run_state :=
  main_script env w
    {| session := set_user_input (w_user_input w) (initialize_session_state st);
       page := [];
       exchanges := [] |}.

Definition session_after (r : res ConversationBufferWindowMemory * run_state)
    : session_state := session (snd r).

(** The transcript of a session, before its first execution too. *)
Definition transcript (st : option session_state) : list message :=
  chat_history (initialize_session_state st).

(** ** Interactions

    A user action starts an execution with the widget values of the
    browser.  When the execution ends with [st.rerun()], Streamlit runs
    the script again at once: the widgets keep their values, the text area
    shows what is under its key, and no button is pressed. *)

Definition rerun_widgets (w : widgets) (st : session_state) : widgets :=
  {| w_model := w_model w;
     w_memory_length := w_memory_length w;
     w_persona := w_persona w;
     w_user_input := user_input st;
     w_clicked := None |}.

Record action : Type := {
  a_env : environment;        (* the services during the execution *)
  a_env_rerun : environment;  (* the services during its rerun *)
  a_widgets : widgets
}.

(** The executions of a user action: the state after the last one, with
    the requests of all of them. *)
Definition interact (a : action) (st : option session_state)
    : res ConversationBufferWindowMemory * run_state :=
  let r := main (a_env a) (a_widgets a) st in
  match fst r with
  | RerunException =>
      let r' := main (a_env_rerun a)
                     (rerun_widgets (a_widgets a) (session_after r))
                     (Some (session_after r)) in
      (fst r', {| session := session (snd r');
                  page := page (snd r');
                  exchanges := exchanges (snd r) ++ exchanges (snd r') |})
  | _ => r
  end.

(** A session: the actions of the user in order, from a session state. *)
Fixpoint play (actions : list action) (st : option session_state)
    : option session_state :=
  match actions with
  | [] => st
  | a :: rest => play rest (Some (session_after (interact a st)))
  end.

(** The requests of a session, in order. *)
Fixpoint requests (actions : list action) (st : option session_state)
    : list exchange :=
  match actions with
  | [] => []
  | a :: rest =>
      exchanges (snd (interact a st))
      ++ requests rest (Some (session_after (interact a st)))
  end.

(** ** Descriptions of the pages and of the paths of an execution

    Pure functions that say what each part of the script writes and
    returns; the lemmas of the next part show that the script agrees
    with them. *)

Definition show (els : list element) (s : run_state) : run_state :=
  {| session := session s; page := page s ++ els; exchanges := exchanges s |}.

Definition heading : list element :=
  [st_title "🛠️ Chat Settings"; st_subheader "Model Selection";
   st_subheader "Memory Settings"; st_subheader "AI Persona"].

Definition statistics (env : environment) (st : session_state) : list element :=
  match start_time st with
  | Some t =>
      [st_subheader "📊 Chat Statistics";
       st_metric "Messages" (PyStr.str_int (Z.of_nat (List.length (chat_history st))));
       st_metric "Duration"
         (PyStr.str_int (seconds (now env - t) / 60) ++ "m "
          ++ PyStr.str_int (seconds (now env - t) mod 60) ++ "s")]
  | None => []
  end.

Definition cleared (st : session_state) : session_state :=
  set_user_input "" (set_start_time None (set_chat_history [] st)).

Definition turn_head (p : persona) (m : message) : list element :=
  [st_write "👤 You"; st_info (human m);
   st_write ("🤖 Assistant (" ++ persona_label p ++ " mode)");
   st_success (AI m)].

Fixpoint rendered (env : environment) (p : persona) (h : list message) : list element :=
  match h with
  | [] => []
  | m :: rest =>
      turn_head p m ++
      match gTTS env (AI m) with
      | inr a => [st_audio a "audio/mp3"; st_write ""] ++ rendered env p rest
      | inl _ => []
      end
  end.

Fixpoint spoken (env : environment) (h : list message) : option exn :=
  match h with
  | [] => None
  | m :: rest =>
      match gTTS env (AI m) with
      | inr _ => spoken env rest
      | inl e => Some e
      end
  end.

Definition recognition (env : environment) : exn + string :=
  match listen env with
  | inl e => inl e
  | inr a => recognize_google env a
  end.

Definition heard (env : environment) : res string :=
  match microphone env with
  | Some e => Raise e
  | None =>
      match recognition env with
      | inr text => Val text
      | inl e =>
          match class_of e with
          | OtherException => Raise e
          | _ => Val ""
          end
      end
  end.

Definition voice_page (env : environment) : list element :=
  match microphone env with
  | Some _ => []
  | None =>
      st_info "🎙️ Speak now..." ::
      match recognition env with
      | inr _ => []
      | inl e =>
          match class_of e with
          | WaitTimeoutError => [st_warning "⏳ Listening timed out. Please try again."]
          | UnknownValueError => [st_warning "⚠️ Could not understand the audio. Please try again."]
          | RequestError => [st_error ("⚠️ Could not request results from the speech recognition service: " ++ str_of e)]
          | OtherException => []
          end
      end
  end.

Definition turn_messages (m : message) : list base_message :=
  [HumanMessage (human m); AIMessage (AI m)].

Definition request_of (chain : ConversationChain) (env : environment)
   (memory : ConversationBufferWindowMemory) (input : string) : exchange :=
  let text := format (prompt chain) (get_buffer_string (buffer memory)) input in
  {| x_model := llm chain; x_context := buffer memory; x_input := input;
     x_prompt := text; x_answer := groq env (llm chain) text |}.

(** The script after the side bar and the display of the history. *)
Definition buttons (env : environment) (w : widgets)
    (chain : ConversationChain) (memory : ConversationBufferWindowMemory)
    : script ConversationBufferWindowMemory :=
  memory <- voice_input_button env w chain memory ;;
  memory <- send_button env w chain memory (w_user_input w) ;;
  memory <- new_topic_button w memory ;;
  footer w ;;
  ret memory.

Definition chain_of (w : widgets) : ConversationChain :=
  {| llm := w_model w; prompt := {| template := personas (w_persona w) |} |}.

Definition loaded (w : widgets) (h : list message) : ConversationBufferWindowMemory :=
  load_chat_history h (new_memory (w_memory_length w)).

Definition ready (env : environment) (w : widgets) (st : session_state) : run_state :=
  let st' := set_selected_persona (w_persona w) st in
  {| session := set_user_input (w_user_input w) st';
     page := heading ++ statistics env st'
             ++ [st_title "🤖 Groq Chat Assistant"]
             ++ rendered env (w_persona w) (chat_history st)
             ++ [st_markdown "### 💭 Your Message" false];
     exchanges := [] |}.

Definition footer_page (w : widgets) (st : session_state) : list element :=
  [st_markdown "---" false;
   st_markdown
     ("Using Groq AI with "
      ++ PyStr.lower (persona_label (get_selected_persona st)) ++ " persona | "
      ++ "Memory: " ++ PyStr.str_int (w_memory_length w) ++ " messages") false;
   st_markdown footer_html true].

Definition finish (w : widgets) (memory : ConversationBufferWindowMemory)
    (s : run_state) : res ConversationBufferWindowMemory * run_state :=
  (Val memory, show (footer_page w (session s)) s).

Definition ask_then_finish (env : environment) (w : widgets)
    (chain : ConversationChain) (memory : ConversationBufferWindowMemory)
    (input : string) (s : run_state)
    : res ConversationBufferWindowMemory * run_state :=
  let x := request_of chain env memory input in
  match x_answer x with
  | inr response =>
      (RerunException,
       {| session := append_chat_history {| human := input; AI := response |} (session s);
          page := page s ++ [st_spinner "🤔 Thinking..."];
          exchanges := exchanges s ++ [x] |})
  | inl e =>
      finish w memory
       {| session := session s;
          page := page s ++ [st_spinner "🤔 Thinking..."; st_error ("⚠️ Error: " ++ str_of e)];
          exchanges := exchanges s ++ [x] |}
  end.

Definition started (env : environment) (s : run_state) : run_state :=
  match start_time (session s) with
  | None => {| session := set_start_time (Some (now env)) (session s);
               page := page s; exchanges := exchanges s |}
  | Some _ => s
  end.

(** The input an execution sends to the chat service, if it gets that
    far: the text area for the send button, the recognised speech for the
    voice button, and nothing when the input is empty. *)
Definition send_input (env : environment) (w : widgets) : option string :=
  match w_clicked w with
  | Some Send =>
      if PyStr.truthy (PyStr.strip (w_user_input w)) then Some (w_user_input w)
      else None
  | Some UseVoiceInput =>
      match heard env with
      | Val voice_input => if PyStr.truthy voice_input then Some voice_input else None
      | _ => None
      end
  | _ => None
  end.

(** The start time after an execution that sends [send_input]: only the
    send button sets it, when it is unset. *)
Definition start_after (env : environment) (w : widgets) (st : session_state)
    : option datetime :=
  match w_clicked w, start_time st with
  | Some Send, None => Some (now env)
  | _, t => t
  end.

(** The four ways an execution can go, with what each leaves behind:
    the clear button; no request to the chat service; a request that the
    service answered; a request on which the service raised. *)
Inductive run_spec (env : environment) (w : widgets) (st : session_state)
    (r : res ConversationBufferWindowMemory * run_state) : Prop :=
| run_clear :
    w_clicked w = Some ClearChatHistory ->
    session_after r = cleared (set_selected_persona (w_persona w) st) ->
    exchanges (snd r) = [] ->
    fst r = RerunException ->
    run_spec env w st r
| run_quiet :
    w_clicked w <> Some ClearChatHistory ->
    spoken env (chat_history st) <> None \/ send_input env w = None ->
    chat_history (session_after r) = chat_history st ->
    start_time (session_after r) = start_time st ->
    total_messages (session_after r) = total_messages st ->
    exchanges (snd r) = [] ->
    fst r <> RerunException ->
    run_spec env w st r
| run_sent (input response : string) :
    spoken env (chat_history st) = None ->
    send_input env w = Some input ->
    let x := request_of (chain_of w) env (loaded w (chat_history st)) input in
    x_answer x = inr response ->
    exchanges (snd r) = [x] ->
    session_after r =
      append_chat_history {| human := input; AI := response |}
        (set_start_time (start_after env w st)
           (set_user_input (w_user_input w)
              (set_selected_persona (w_persona w) st))) ->
    fst r = RerunException ->
    run_spec env w st r
| run_failed (input : string) (e : exn) :
    spoken env (chat_history st) = None ->
    send_input env w = Some input ->
    let x := request_of (chain_of w) env (loaded w (chat_history st)) input in
    x_answer x = inl e ->
    exchanges (snd r) = [x] ->
    session_after r =
      set_start_time (start_after env w st)
        (set_user_input (w_user_input w)
           (set_selected_persona (w_persona w) st)) ->
    fst r = Val (loaded w (chat_history st)) ->
    In (st_error ("⚠️ Error: " ++ str_of e)) (page (snd r)) ->
    run_spec env w st r.

(** ** Sessions of successful sends *)

(** The turn an answered request stands for. *)
Definition turn_of (x : exchange) : message :=
  {| human := x_input x;
     AI := match x_answer x with inr response => response | inl _ => "" end |}.

(** The text a send action submits: the recognised speech for the voice
    button, the text area otherwise. *)
Definition submitted (a : action) : string :=
  match w_clicked (a_widgets a) with
  | Some UseVoiceInput =>
      match heard (a_env a) with Val text => text | _ => "" end
  | _ => w_user_input (a_widgets a)
  end.

(** A successful send: the execution of the action put one request to the
    chat service, and the service returned a response. *)
Definition successful_send (a : action) (st : option session_state) : Prop :=
  exists x response,
    exchanges (snd (main (a_env a) (a_widgets a) st)) = [x]
    /\ x_answer x = inr response.

Fixpoint successful_sends (actions : list action) (st : option session_state)
    : Prop :=
  match actions with
  | [] => True
  | a :: rest =>
      successful_send a st
      /\ successful_sends rest (Some (session_after (interact a st)))
  end.

(** ** Everything a session shows *)

(** The executions of a user action: the one it starts and, after
    [st.rerun()], the rerun. *)
Definition executions (a : action) (st : option session_state)
    : list (res ConversationBufferWindowMemory * run_state) :=
  let r := main (a_env a) (a_widgets a) st in
  match fst r with
  | RerunException =>
      [r; main (a_env_rerun a)
               (rerun_widgets (a_widgets a) (session_after r))
               (Some (session_after r))]
  | _ => [r]
  end.

(** All executions of a session, in order. *)
Fixpoint trace (actions : list action) (st : option session_state)
    : list (res ConversationBufferWindowMemory * run_state) :=
  match actions with
  | [] => []
  | a :: rest =>
      executions a st ++ trace rest (Some (session_after (interact a st)))
  end.

(** The elements of the statistics panel of [display_chat_statistics]:
    its subheader and its two metrics. *)
Definition is_statistic (e : element) : bool :=
  match e with
  | st_subheader body => String.eqb body "📊 Chat Statistics"
  | st_metric _ _ => true
  | _ => false
  end.

Definition shows_statistics (pg : list element) : bool :=
  existsb is_statistic pg.

(** The elements that carry the text and the audio of a turn. *)
Definition is_content (e : element) : bool :=
  match e with
  | st_info _ | st_success _ | st_audio _ _ => true
  | _ => false
  end.

Definition content (pg : list element) : list element :=
  filter is_content pg.

(** The top of every page that is not cut short by the clear button. *)
Definition front (env : environment) (w : widgets) (st : session_state)
    : list element :=
  heading ++ statistics env (set_selected_persona (w_persona w) st)
  ++ [st_title "🤖 Groq Chat Assistant"]
  ++ rendered env (w_persona w) (chat_history st).

(** The content below the history: what the pressed button wrote. *)
Definition button_content (env : environment) (w : widgets) : list element :=
  match w_clicked w with
  | Some UseVoiceInput => content (voice_page env)
  | Some NewTopic => [st_success "Memory cleared for new topic!"]
  | _ => []
  end.

(** An execution that leaves the start time unset and whose page is
    without the statistics panel. *)
Definition unstarted (r : res ConversationBufferWindowMemory * run_state)
    : Prop :=
  start_time (session_after r) = None
  /\ shows_statistics (page (snd r)) = false.

(** The view of the stored turns does not depend on the selected persona:
    the loop that displays the history writes the same elements whatever
    persona the session state holds. *)
Definition view_ignores_persona : Prop :=
  forall (env : environment) (h : list message) (st : session_state)
         (p p' : persona),
    page (snd (display_chat_history env h
                 {| session := set_selected_persona p st;
                    page := []; exchanges := [] |}))
    = page (snd (display_chat_history env h
                   {| session := set_selected_persona p' st;
                      page := []; exchanges := [] |})).

(** ** Sample data *)

Definition sample_env : environment :=
  {| now := 90000000;
     microphone := None;
     listen := inr "pcm";
     recognize_google := fun _ => inr "what is a monad";
     gTTS := fun text => inr ("mp3 of " ++ text);
     groq := fun _ _ => inr "an answer" |}.

Definition sample_widgets (text : string) (b : option button) : widgets :=
  {| w_model := gemma2_9b_it;
     w_memory_length := 2;
     w_persona := Default;
     w_user_input := text;
     w_clicked := b |}.

Definition sample_action (text : string) (b : option button) : action :=
  {| a_env := sample_env;
     a_env_rerun := sample_env;
     a_widgets := sample_widgets text b |}.

(** A session with the three turns (A1,B1), (A2,B2), (A3,B3). *)
Definition three_turns : session_state :=
  {| chat_history := [ {| human := "A1"; AI := "B1" |};
                       {| human := "A2"; AI := "B2" |};
                       {| human := "A3"; AI := "B3" |} ];
     total_messages := 0;
     start_time := Some 0;
     selected_persona := Some Default;
     user_input := "" |}.

(** The chat service is down. *)
Definition failing_env : environment :=
  {| now := 90000000;
     microphone := None;
     listen := inr "pcm";
     recognize_google := fun _ => inr "what is a monad";
     gTTS := fun text => inr ("mp3 of " ++ text);
     groq := fun _ _ =>
       inl {| class_of := OtherException; str_of := "503 Service Unavailable" |} |}.

(** Nobody speaks. *)
Definition silent_env : environment :=
  {| now := 90000000;
     microphone := None;
     listen := inl {| class_of := WaitTimeoutError;
                      str_of := "listening timed out while waiting for phrase to start" |};
     recognize_google := fun _ => inr "what is a monad";
     gTTS := fun text => inr ("mp3 of " ++ text);
     groq := fun _ _ => inr "an answer" |}.

(** ** The failure modes of speech recognition *)

Inductive recognition_failure (env : environment) : Prop :=
| listen_timeout (e : exn) :
    listen env = inl e ->
    class_of e = WaitTimeoutError ->
    recognition_failure env
| unintelligible_audio (a : audio) (e : exn) :
    listen env = inr a ->
    recognize_google env a = inl e ->
    class_of e = UnknownValueError ->
    recognition_failure env
| request_failure (a : audio) (e : exn) :
    listen env = inr a ->
    recognize_google env a = inl e ->
    class_of e = RequestError ->
    recognition_failure env.

(** A session that holds the turn (A1,B1). *)
Definition one_turn : session_state :=
  {| chat_history := [ {| human := "A1"; AI := "B1" |} ];
     total_messages := 0;
     start_time := Some 0;
     selected_persona := Some Default;
     user_input := "" |}.

(** The widgets of [sample_widgets] after the user chose the expert
    persona and another model. *)
Definition expert_widgets (text : string) (b : option button) : widgets :=
  {| w_model := llama2_70b_4096;
     w_memory_length := 2;
     w_persona := Expert;
     w_user_input := text;
     w_clicked := b |}.

(** ** Further descriptions *)

(** The widgets of an execution that no button started. *)
Definition without_button (w : widgets) : widgets :=
  {| w_model := w_model w;
     w_memory_length := w_memory_length w;
     w_persona := w_persona w;
     w_user_input := w_user_input w;
     w_clicked := None |}.

(** The text and the audio the page shows for a stored turn. *)
Definition turn_content (env : environment) (m : message) : list element :=
  [st_info (human m); st_success (AI m)]
  ++ match gTTS env (AI m) with
     | inr a => [st_audio a "audio/mp3"]
     | inl _ => []
     end.

(** The speech synthesiser answers for every stored turn. *)
Definition speaks_all (env : environment) (h : list message) : Prop :=
  Forall (fun m => exists a, gTTS env (AI m) = inr a) h.

(** A day, in microseconds. *)
Definition day : Z := 86400000000.

(** The recogniser hears a blank. *)
Definition blank_env : environment :=
  {| now := 90000000;
     microphone := None;
     listen := inr "pcm";
     recognize_google := fun _ => inr " ";
     gTTS := fun text => inr ("mp3 of " ++ text);
     groq := fun _ _ => inr "an answer" |}.

(** No microphone is plugged in. *)
Definition deaf_env : environment :=
  {| now := 90000000;
     microphone := Some {| class_of := OtherException;
                           str_of := "No Default Input Device Available" |};
     listen := inr "pcm";
     recognize_google := fun _ => inr "what is a monad";
     gTTS := fun text => inr ("mp3 of " ++ text);
     groq := fun _ _ => inr "an answer" |}.

(** The speech synthesiser is down. *)
Definition mute_env : environment :=
  {| now := 90000000;
     microphone := None;
     listen := inr "pcm";
     recognize_google := fun _ => inr "what is a monad";
     gTTS := fun _ =>
       inl {| class_of := OtherException; str_of := "Failed to connect" |};
     groq := fun _ _ => inr "an answer" |}.

(** A day and a half later. *)
Definition later_env : environment :=
  {| now := 90000000 + day;
     microphone := None;
     listen := inr "pcm";
     recognize_google := fun _ => inr "what is a monad";
     gTTS := fun text => inr ("mp3 of " ++ text);
     groq := fun _ _ => inr "an answer" |}.

(** ** Successful sends, by their inputs *)

(** The prompt of the request for [input] that the widgets [w] select,
    over the transcript [h]: the template of the persona (line 154),
    filled with the window of a memory of the selected length into which
    [h] was loaded (lines 145, 158-162), and with the input. *)
Definition prompt_of (w : widgets) (h : list message) (input : string) : string :=
  format {| template := personas (w_persona w) |}
    (get_buffer_string
       (buffer (load_chat_history h (new_memory (w_memory_length w)))))
    input.

(** The action submits the non-empty text [input]: typed, and sent with
    the send button, or spoken after a press of the voice button. *)
Definition submits (a : action) (input : string) : Prop :=
  (w_clicked (a_widgets a) = Some Send
   /\ w_user_input (a_widgets a) = input
   /\ PyStr.strip input <> "")
  \/ (w_clicked (a_widgets a) = Some UseVoiceInput
      /\ input <> ""
      /\ forall s, fst (get_voice_input (a_env a) s) = Val input).

(** A successful send over the transcript [h]: the action submits a
    non-empty input, the history can be displayed, which comes first in
    the script, and the chat service returns [response] to the request. *)
Definition send_succeeds (a : action) (h : list message)
    (input response : string) : Prop :=
  submits a input
  /\ speaks_all (a_env a) h
  /\ groq (a_env a) (w_model (a_widgets a)) (prompt_of (a_widgets a) h input)
     = inr response.

(** A sequence of successful sends from the transcript [h], with the turn
    of each: the text it submits and the response the service returns. *)
Fixpoint sends_succeed (h : list message) (actions : list action)
    (turns : list message) : Prop :=
  match actions, turns with
  | [], [] => True
  | a :: rest, t :: more =>
      send_succeeds a h (human t) (AI t)
      /\ sends_succeed (h ++ [t]) rest more
  | _, _ => False
  end.

(** A session that has shown its page once and holds no turn. *)
Definition blank_session : session_state :=
  {| chat_history := [];
     total_messages := 0;
     start_time := None;
     selected_persona := Some Default;
     user_input := "" |}.

(** ** The header lines of the displayed turns *)

(** The header line of the assistant part of a displayed turn (line 171),
    for the persona [p]. *)
Definition assistant_header (p : persona) : element :=
  st_write ("🤖 Assistant (" ++ persona_label p ++ " mode)").

(** The elements of a page that are such header lines, for any persona. *)
Definition is_header (e : element) : bool :=
  match e with
  | st_write body => String.prefix "🤖 Assistant (" body
  | _ => false
  end.

Definition headers (pg : list element) : list element :=
  filter is_header pg.

(** ** The parts of the script, one lemma each *)

Example strip_examples :
  PyStr.strip "  hi there
 " = "hi there"
  /\ PyStr.strip "   " = ""
  /\ PyStr.strip "" = ""
  /\ PyStr.lower "Expert" = "expert"
  /\ PyStr.str_int 125 = "125"
  /\ PyStr.slice_from (-2) [1; 2; 3] = [2; 3]
  /\ PyStr.slice_from (-4) [1; 2; 3] = [1; 2; 3].
Proof. repeat split; reflexivity. Qed.

Example window_example :
  buffer (load_chat_history (chat_history three_turns) (new_memory 2))
  = [HumanMessage "A2"; AIMessage "B2"; HumanMessage "A3"; AIMessage "B3"]
  /\ get_buffer_string [HumanMessage "A2"; AIMessage "B2"]
     = "Human: A2
AI: B2".
Proof. split; reflexivity. Qed.

Example window_two_of_three (t1 t2 t3 : message) :
  buffer (load_chat_history [t1; t2; t3] (new_memory 2))
  = (turn_messages t2 ++ turn_messages t3)%list
  /\ buffer (load_chat_history [t1] (new_memory 2)) = turn_messages t1
  /\ buffer (clear (load_chat_history [t1; t2; t3] (new_memory 2))) = [].
Proof. repeat split; reflexivity. Qed.

Example first_send_example :
  let r := main sample_env (sample_widgets "hello" (Some Send)) None in
  fst r = RerunException
  /\ chat_history (session_after r) = [ {| human := "hello"; AI := "an answer" |} ]
  /\ start_time (session_after r) = Some 90000000
  /\ map x_prompt (exchanges (snd r))
     = ["You are a helpful AI assistant.
                     Current conversation:
                     
                     Human: hello
                     AI:"].
Proof. repeat split; reflexivity. Qed.

Example statistics_example :
  statistics sample_env three_turns
  = [st_subheader "📊 Chat Statistics"; st_metric "Messages" "3";
     st_metric "Duration" "1m 30s"].
Proof. reflexivity. Qed.

Ltac state_eq :=
  repeat match goal with s : run_state |- _ => destruct s end;
  unfold show, ret, raise; cbn;
  rewrite <- ?app_assoc; cbn; rewrite ?app_nil_r; reflexivity.

Lemma show_nil s : show [] s = s.
Proof. destruct s; unfold show; cbn. now rewrite app_nil_r. Qed.

Lemma show_show a b s : show b (show a s) = show (a ++ b) s.
Proof. unfold show; cbn. now rewrite app_assoc. Qed.

Lemma emit_run e s : emit e s = (Val tt, show [e] s).
Proof. reflexivity. Qed.

Lemma display_chat_statistics_run env s :
  display_chat_statistics env s = (Val tt, show (statistics env (session s)) s).
Proof.
  unfold display_chat_statistics, statistics, bind, get_session.
  destruct (start_time (session s)).
  - rewrite !emit_run, !show_show. reflexivity.
  - cbn. now rewrite show_nil.
Qed.

Lemma sidebar_run env w s :
  sidebar env w s =
  let st := set_selected_persona (w_persona w) (session s) in
  let pg := (page s ++ heading ++ statistics env st)%list in
  if st_button w ClearChatHistory
  then (RerunException, {| session := cleared st; page := pg; exchanges := exchanges s |})
  else (Val tt, {| session := st; page := pg; exchanges := exchanges s |}).
Proof.
  unfold sidebar, bind. rewrite !emit_run. cbn [fst snd].
  unfold update_session at 1. rewrite display_chat_statistics_run.
  destruct (st_button w ClearChatHistory); unfold ret, show; cbn;
    rewrite <- ?app_assoc; cbn; reflexivity.
Qed.

Lemma display_chat_history_run env h s :
  display_chat_history env h s =
  (match spoken env h with Some e => Raise e | None => Val tt end,
   show (rendered env (get_selected_persona (session s)) h) s).
Proof.
  unfold display_chat_history. revert s.
  induction h as [|m rest IH]; intros s; cbn [for_each spoken rendered].
  - unfold ret. now rewrite show_nil.
  - unfold bind at 1. unfold bind at 1. rewrite emit_run.
    unfold bind at 1. rewrite emit_run. unfold bind at 1, get_session at 1.
    unfold bind at 1. rewrite emit_run. unfold bind at 1. rewrite emit_run.
    unfold bind at 1, text_to_audio, call.
    destruct (gTTS env (AI m)) as [e|a].
    + state_eq.
    + unfold ret at 1. unfold bind at 1. rewrite emit_run.
      unfold bind at 1. rewrite emit_run. rewrite IH.
      destruct (spoken env rest); state_eq.
Qed.

Lemma get_voice_input_run env s :
  get_voice_input env s = (heard env, show (voice_page env) s).
Proof.
  unfold get_voice_input, heard, voice_page, recognition, bind at 1.
  destruct (microphone env) as [e|].
  - state_eq.
  - unfold ret at 1, bind at 1. rewrite emit_run.
    unfold bind at 1, try_except, bind at 1, call.
    destruct (listen env) as [e|a].
    + unfold raise at 1. destruct (class_of e); state_eq.
    + unfold ret at 1, bind at 1.
      destruct (recognize_google env a) as [e|text].
      * unfold raise at 1. destruct (class_of e); state_eq.
      * state_eq.
Qed.

Lemma ask_run env chain memory input s :
  ask env chain memory input s =
  let x := request_of chain env memory input in
  match x_answer x with
  | inr response =>
      (RerunException,
       {| session := append_chat_history {| human := input; AI := response |} (session s);
          page := page s ++ [st_spinner "🤔 Thinking..."];
          exchanges := exchanges s ++ [x] |})
  | inl e =>
      (Val memory,
       {| session := session s;
          page := page s ++ [st_spinner "🤔 Thinking..."; st_error ("⚠️ Error: " ++ str_of e)];
          exchanges := exchanges s ++ [x] |})
  end.
Proof.
  unfold ask, request_of, bind at 1. rewrite emit_run.
  unfold try_except, bind at 1, conversation, bind at 1, log, call.
  cbn [x_answer].
  destruct (groq env (llm chain) _) as [e|response]; state_eq.
Qed.

Lemma load_chat_history_messages h memory :
  messages (load_chat_history h memory) = (messages memory ++ flat_map turn_messages h)%list
  /\ k (load_chat_history h memory) = k memory.
Proof.
  unfold load_chat_history. revert memory.
  induction h as [|m rest IH]; intros memory; cbn [fold_left flat_map].
  - now rewrite app_nil_r.
  - destruct (IH (save_context (human m) (AI m) memory)) as [-> ->].
    cbn. now rewrite <- app_assoc.
Qed.

Lemma main_run env w st0 :
  main env w st0 =
  let st := set_selected_persona (w_persona w) (initialize_session_state st0) in
  if st_button w ClearChatHistory then
    (RerunException,
     {| session := cleared st; page := heading ++ statistics env st; exchanges := [] |})
  else
    match spoken env (chat_history st) with
    | Some e =>
        (Raise e,
         {| session := set_user_input (w_user_input w) st;
            page := heading ++ statistics env st
                    ++ [st_title "🤖 Groq Chat Assistant"]
                    ++ rendered env (w_persona w) (chat_history st);
            exchanges := [] |})
    | None =>
        buttons env w (chain_of w) (loaded w (chat_history st))
          (ready env w (initialize_session_state st0))
    end.
Proof.
  unfold main, main_script, bind at 1. rewrite sidebar_run. cbn zeta.
  destruct (st_button w ClearChatHistory); [state_eq|].
  unfold bind at 1. rewrite emit_run.
  unfold bind at 1, get_custom_prompt, bind at 1, get_session at 1, ret at 1.
  unfold bind at 1, get_session at 1.
  unfold bind at 1. rewrite display_chat_history_run.
  cbn [session show chat_history set_selected_persona get_selected_persona selected_persona].
  destruct (spoken env _) as [e|]; [state_eq|].
  unfold bind at 1. rewrite emit_run.
  unfold bind at 1, st_text_area, bind at 1, get_session at 1, ret at 1.
  unfold buttons, chain_of, loaded, ready.
  f_equal. state_eq.
Qed.

Lemma footer_run w s : footer w s = (Val tt, show (footer_page w (session s)) s).
Proof. unfold footer, bind, get_session. rewrite !emit_run. state_eq. Qed.

Lemma finish_run w memory s : (footer w ;; ret memory) s = finish w memory s.
Proof. unfold bind. rewrite footer_run. reflexivity. Qed.

Lemma buttons_run env w chain memory s :
  buttons env w chain memory s =
  match w_clicked w with
  | Some UseVoiceInput =>
      match heard env with
      | Val voice_input =>
          if PyStr.truthy voice_input
          then ask_then_finish env w chain memory voice_input (show (voice_page env) s)
          else finish w memory (show (voice_page env) s)
      | Raise e => (Raise e, show (voice_page env) s)
      | RerunException => (RerunException, show (voice_page env) s)
      end
  | Some Send =>
      if PyStr.truthy (PyStr.strip (w_user_input w))
      then ask_then_finish env w chain memory (w_user_input w) (started env s)
      else finish w memory s
  | Some NewTopic =>
      finish w (clear memory) (show [st_success "Memory cleared for new topic!"] s)
  | Some ClearChatHistory | None => finish w memory s
  end.
Proof.
  unfold buttons, voice_input_button, send_button, new_topic_button, st_button.
  destruct (w_clicked w) as [[| | |]|]; cbn [button_eqb andb].
  - unfold bind at 1, ret at 1. unfold bind at 1, ret at 1. unfold bind at 1, ret at 1.
    apply finish_run.
  - unfold bind at 1, bind at 1. rewrite get_voice_input_run.
    destruct (heard env) as [v| |]; try reflexivity.
    destruct (PyStr.truthy v).
    + rewrite ask_run. unfold ask_then_finish. cbn zeta.
      destruct (x_answer _); [|reflexivity].
      unfold bind at 1, ret at 1. unfold bind at 1, ret at 1. apply finish_run.
    + unfold ret at 1. unfold bind at 1, ret at 1. unfold bind at 1, ret at 1.
      apply finish_run.
  - unfold bind at 1, ret at 1. unfold bind at 1.
    destruct (PyStr.truthy (PyStr.strip (w_user_input w))).
    + unfold bind at 1, get_session at 1. unfold bind at 1.
      replace ((match start_time (session s) with
                | Some _ => ret tt
                | None => update_session (set_start_time (Some (now env)))
                end) s) with (Val tt, started env s)
        by (unfold started; destruct (start_time (session s)); state_eq).
      rewrite ask_run. unfold ask_then_finish. cbn zeta.
      destruct (x_answer _); [|reflexivity].
      unfold bind at 1, ret at 1. apply finish_run.
    + unfold ret at 1. unfold bind at 1, ret at 1. apply finish_run.
  - unfold bind at 1, ret at 1. unfold bind at 1, ret at 1.
    unfold bind at 1, bind at 1. rewrite emit_run. unfold ret at 1. apply finish_run.
  - unfold bind at 1, ret at 1. unfold bind at 1, ret at 1. unfold bind at 1, ret at 1.
    apply finish_run.
Qed.

(** ** Executions without a pressed button, and reruns *)

Ltac run_main :=
  rewrite main_run; cbn zeta;
  try match goal with
      | H : w_clicked _ = _ |- _ => unfold st_button; rewrite H; cbn [button_eqb]
      end.

Lemma main_no_button env w st :
  w_clicked w = None ->
  chat_history (session_after (main env w st)) = transcript st
  /\ start_time (session_after (main env w st))
     = start_time (initialize_session_state st)
  /\ exchanges (snd (main env w st)) = []
  /\ fst (main env w st) <> RerunException.
Proof.
  intros Hc. unfold session_after, transcript. run_main.
  destruct (spoken env _) as [e|].
  - cbn. repeat split; discriminate.
  - rewrite buttons_run, Hc. cbn. repeat split; discriminate.
Qed.

Lemma interact_main a st :
  chat_history (session_after (interact a st))
  = chat_history (session_after (main (a_env a) (a_widgets a) st))
  /\ start_time (session_after (interact a st))
     = start_time (session_after (main (a_env a) (a_widgets a) st))
  /\ exchanges (snd (interact a st))
     = exchanges (snd (main (a_env a) (a_widgets a) st)).
Proof.
  unfold interact. cbn zeta.
  destruct (fst (main (a_env a) (a_widgets a) st)); try (repeat split; reflexivity).
  destruct (main_no_button (a_env_rerun a)
              (rerun_widgets (a_widgets a)
                 (session_after (main (a_env a) (a_widgets a) st)))
              (Some (session_after (main (a_env a) (a_widgets a) st)))
              eq_refl) as (Hh & Ht & Hx & _).
  unfold session_after in *. cbn [snd session exchanges].
  rewrite Hh, Ht, Hx, app_nil_r. repeat split; reflexivity.
Qed.

(** ** Clearing the history *)

(** C5: whatever the session state holds, the execution started by the
    clear button leaves an empty transcript and an unset start time and
    ends with the rerun signal; so does the whole interaction, rerun
    included. *)
Theorem clear_history_resets (a : action) (st : option session_state) :
  w_clicked (a_widgets a) = Some ClearChatHistory ->
  let r := main (a_env a) (a_widgets a) st in
  chat_history (session_after r) = []
  /\ start_time (session_after r) = None
  /\ fst r = RerunException
  /\ chat_history (session_after (interact a st)) = []
  /\ start_time (session_after (interact a st)) = None.
Proof.
  intros Hc r.
  assert (Hr : chat_history (session_after r) = []
               /\ start_time (session_after r) = None
               /\ fst r = RerunException).
  { subst r. unfold session_after. run_main. cbn. repeat split. }
  destruct Hr as (Hh & Ht & Hf).
  destruct (interact_main a st) as (Ih & It & _). fold r in Ih, It.
  rewrite Ih, It. repeat split; assumption.
Qed.

Lemma clear_history_resets_witness :
  let a := sample_action "some text" (Some ClearChatHistory) in
  let after := session_after (interact a (Some three_turns)) in
  w_clicked (a_widgets a) = Some ClearChatHistory
  /\ chat_history after = []
  /\ start_time after = None.
Proof.
  intros a after.
  destruct (clear_history_resets a (Some three_turns) eq_refl)
    as (_ & _ & _ & H1 & H2).
  exact (conj eq_refl (conj H1 H2)).
Defined.

(** ** The four ways of an execution *)

Lemma main_spec env w st0 :
  run_spec env w (initialize_session_state st0) (main env w st0).
Proof.
  set (st := initialize_session_state st0).
  destruct (w_clicked w) as [b|] eqn:Hc.
  2:{ apply run_quiet; try congruence.
      - right. unfold send_input. now rewrite Hc.
      - apply (main_no_button env w st0 Hc).
      - apply (main_no_button env w st0 Hc).
      - unfold session_after. run_main.
        destruct (spoken env _); [reflexivity|].
        rewrite buttons_run, Hc. reflexivity.
      - apply (main_no_button env w st0 Hc).
      - apply (main_no_button env w st0 Hc). }
  destruct b.
  - apply run_clear; trivial; unfold session_after; run_main; reflexivity.
  - (* voice *)
    destruct (spoken env (chat_history st)) as [e|] eqn:Hs.
    { apply run_quiet; try congruence; try (left; congruence);
        unfold session_after; run_main; fold st; cbn [chat_history set_selected_persona];
        rewrite Hs; cbn; congruence. }
    assert (Hm : main env w st0
                 = buttons env w (chain_of w) (loaded w (chat_history st)) (ready env w st)).
    { run_main. fold st. cbn [chat_history set_selected_persona]. now rewrite Hs. }
    rewrite buttons_run, Hc in Hm.
    destruct (heard env) as [v|e|] eqn:Hh.
    + destruct (PyStr.truthy v) eqn:Hv.
      * unfold ask_then_finish in Hm. cbn zeta in Hm.
        destruct (x_answer (request_of (chain_of w) env (loaded w (chat_history st)) v))
          as [e|response] eqn:Ha.
        -- apply run_failed with (input := v) (e := e); trivial;
             try (rewrite Hm; try reflexivity).
           ++ unfold send_input. now rewrite Hc, Hh, Hv.
           ++ unfold start_after. rewrite Hc. unfold session_after. cbn.
              destruct st; reflexivity.
           ++ unfold finish, show. cbn [snd page].
              apply in_or_app; left; apply in_or_app; right; right; left; reflexivity.
        -- apply run_sent with (input := v) (response := response); trivial;
             try (rewrite Hm; try reflexivity).
           ++ unfold send_input. now rewrite Hc, Hh, Hv.
           ++ unfold start_after. rewrite Hc. unfold session_after. cbn.
              destruct st; reflexivity.
      * apply run_quiet; try congruence; try (rewrite Hm; cbn; congruence).
        right. unfold send_input. now rewrite Hc, Hh, Hv.
    + apply run_quiet; try congruence; try (rewrite Hm; cbn; congruence).
      right. unfold send_input. now rewrite Hc, Hh.
    + apply run_quiet; try congruence;
        try (right; unfold send_input; now rewrite Hc, Hh).
      all: exfalso; unfold heard in Hh;
        destruct (microphone env); try discriminate;
        destruct (recognition env) as [e|]; try discriminate;
        destruct (class_of e); discriminate.
  - (* send *)
    destruct (spoken env (chat_history st)) as [e|] eqn:Hs.
    { apply run_quiet; try congruence; try (left; congruence);
        unfold session_after; run_main; fold st; cbn [chat_history set_selected_persona];
        rewrite Hs; cbn; congruence. }
    assert (Hm : main env w st0
                 = buttons env w (chain_of w) (loaded w (chat_history st)) (ready env w st)).
    { run_main. fold st. cbn [chat_history set_selected_persona]. now rewrite Hs. }
    rewrite buttons_run, Hc in Hm.
    destruct (PyStr.truthy (PyStr.strip (w_user_input w))) eqn:Hv.
    + unfold ask_then_finish in Hm. cbn zeta in Hm.
      destruct (x_answer (request_of (chain_of w) env (loaded w (chat_history st))
                            (w_user_input w))) as [e|response] eqn:Ha.
      * apply run_failed with (input := w_user_input w) (e := e); trivial;
          try (unfold send_input; now rewrite Hc, Hv);
          rewrite Hm; unfold finish, show, started, ready, start_after, session_after;
          rewrite ?Hc;
          cbn [session start_time set_user_input set_selected_persona];
          clearbody st; destruct st as [h tm [t|] sp ui];
          cbn [fst snd page session exchanges app start_time];
          try reflexivity.
        all: apply in_or_app; left; apply in_or_app; right; right; left; reflexivity.
      * apply run_sent with (input := w_user_input w) (response := response); trivial;
          try (unfold send_input; now rewrite Hc, Hv);
          rewrite Hm; unfold started, ready, start_after, session_after;
          rewrite ?Hc;
          cbn [session start_time set_user_input set_selected_persona];
          clearbody st; destruct st as [h tm [t|] sp ui];
          cbn [fst snd page session exchanges app start_time];
          reflexivity.
    + apply run_quiet; try congruence; try (rewrite Hm; cbn; congruence).
      right. unfold send_input. now rewrite Hc, Hv.
  - (* new topic *)
    apply run_quiet; try congruence;
      try (right; unfold send_input; now rewrite Hc).
    all: unfold session_after; run_main; fold st;
      destruct (spoken env _); cbn; try congruence;
      rewrite buttons_run, Hc; cbn; congruence.
Qed.

(** ** Successful sends *)

Lemma send_input_submitted a input :
  send_input (a_env a) (a_widgets a) = Some input -> submitted a = input.
Proof.
  unfold send_input, submitted.
  destruct (w_clicked (a_widgets a)) as [[| | |]|]; try discriminate.
  - destruct (heard (a_env a)) as [v| |]; try discriminate.
    destruct (PyStr.truthy v); congruence.
  - destruct (PyStr.truthy _); congruence.
Qed.

Lemma send_input_not_empty env w input :
  send_input env w = Some input -> input <> "".
Proof.
  unfold send_input.
  destruct (w_clicked w) as [[| | |]|]; try discriminate.
  - destruct (heard env) as [v| |]; try discriminate.
    destruct v; cbn; [discriminate|]. intros [= <-]. discriminate.
  - destruct (w_user_input w); cbn; [discriminate|].
    destruct (PyStr.truthy _); [|discriminate]. intros [= <-]. discriminate.
Qed.

Lemma successful_send_appends a st :
  successful_send a st ->
  exists x,
    exchanges (snd (interact a st)) = [x]
    /\ x_answer x = inr (AI (turn_of x))
    /\ x_input x = submitted a
    /\ submitted a <> ""
    /\ chat_history (session_after (interact a st)) = (transcript st ++ [turn_of x])%list.
Proof.
  intros (x & response & Hx & Ha).
  destruct (interact_main a st) as (Ih & _ & Ix). rewrite Ih, Ix. clear Ih Ix.
  destruct (main_spec (a_env a) (a_widgets a) st)
    as [_ _ He _|_ _ _ _ _ He _|input r Hs Hi x0 Ha0 He Hst _|input e _ _ x0 Ha0 He _ _ _];
    rewrite He in Hx; try discriminate; injection Hx as <-.
  - exists x0. unfold turn_of. rewrite Ha0. cbn [AI human].
    rewrite Hst. unfold transcript.
    rewrite (send_input_submitted a input Hi).
    repeat split; trivial.
    + apply (send_input_not_empty _ _ _ Hi).
  - congruence.
Qed.

Lemma sends_append actions :
  forall st,
    successful_sends actions st ->
    transcript (play actions st)
    = (transcript st ++ map turn_of (requests actions st))%list
    /\ map x_input (requests actions st) = map submitted actions
    /\ Forall (fun x => x_answer x = inr (AI (turn_of x))) (requests actions st)
    /\ Forall (fun t => t <> "") (map submitted actions).
Proof.
  induction actions as [|a rest IH]; intros st Hok; cbn [play requests map].
  - rewrite app_nil_r. repeat split; constructor.
  - destruct Hok as [Ha Hrest].
    destruct (successful_send_appends a st Ha) as (x & Hx & Hans & Hin & Hne & Hh).
    destruct (IH _ Hrest) as (Ht & Hi & Hf & Hn).
    rewrite Hx, Ht. cbn [app map]. unfold transcript at 1.
    cbn [initialize_session_state]. rewrite Hh, <- app_assoc.
    repeat split; trivial.
    + now rewrite Hin, Hi.
    + now constructor.
    + now constructor.
Qed.

(** A press of the send button over a non-blank text is a successful
    send when the history can be displayed and the service answers. *)
Lemma text_send_succeeds a st response :
  w_clicked (a_widgets a) = Some Send ->
  PyStr.strip (w_user_input (a_widgets a)) <> "" ->
  spoken (a_env a) (transcript st) = None ->
  x_answer (request_of (chain_of (a_widgets a)) (a_env a)
              (loaded (a_widgets a) (transcript st))
              (w_user_input (a_widgets a))) = inr response ->
  successful_send a st.
Proof.
  intros Hc Hs Hp Ha. unfold successful_send, transcript in *.
  assert (Hi : send_input (a_env a) (a_widgets a) <> None).
  { unfold send_input. rewrite Hc.
    destruct (PyStr.strip (w_user_input (a_widgets a))); [now elim Hs|discriminate]. }
  destruct (main_spec (a_env a) (a_widgets a) st)
    as [Hc' _ _ _|_ [Hq|Hq] _ _ _ _ _|input r _ Hi' x0 Ha0 He _ _
       |input e _ Hi' x0 Ha0 He _ _ _]; try congruence.
  - exists x0, r. split; assumption.
  - exfalso. unfold send_input in Hi'. rewrite Hc in Hi'.
    destruct (PyStr.truthy _); [|discriminate].
    injection Hi' as <-. subst x0. congruence.
Qed.


(** ** The context of a request *)

Lemma skipn_turn_messages n :
  forall h,
    skipn (2 * n) (flat_map turn_messages h) = flat_map turn_messages (skipn n h).
Proof.
  induction n as [|n IH]; intros h.
  - reflexivity.
  - replace (2 * S n)%nat with (S (S (2 * n))) by lia.
    destruct h as [|m rest]; [reflexivity|].
    cbn [flat_map turn_messages app skipn]. apply IH.
Qed.

Lemma length_turn_messages h :
  List.length (flat_map turn_messages h) = (2 * List.length h)%nat.
Proof.
  induction h as [|m rest IH]; cbn [flat_map turn_messages app List.length]; lia.
Qed.

Lemma buffer_loaded w h :
  0 < w_memory_length w ->
  buffer (loaded w h)
  = flat_map turn_messages
      (skipn (List.length h - Z.to_nat (w_memory_length w)) h).
Proof.
  intros Hk. unfold buffer, loaded.
  destruct (load_chat_history_messages h (new_memory (w_memory_length w)))
    as [-> ->].
  cbn [new_memory messages k app].
  destruct (Z.gtb_spec (w_memory_length w) 0) as [_|]; [|lia].
  unfold PyStr.slice_from. rewrite length_turn_messages.
  destruct (Z.ltb_spec (- w_memory_length w * 2) 0) as [_|]; [|lia].
  rewrite <- skipn_turn_messages. f_equal. lia.
Qed.

(** C2: every request an execution puts to the chat service carries as
    context the messages of the last min(T, k) turns of the transcript, in
    their order, for a transcript of T turns and a window k between 1 and
    10; the prompt is the persona template filled with that context and
    with the input. *)
Theorem context_is_last_turns (env : environment) (w : widgets)
    (st : option session_state) (x : exchange) :
  1 <= w_memory_length w <= 10 ->
  In x (exchanges (snd (main env w st))) ->
  exists older recent,
    transcript st = (older ++ recent)%list
    /\ List.length recent
       = Nat.min (List.length (transcript st)) (Z.to_nat (w_memory_length w))
    /\ x_context x = flat_map turn_messages recent
    /\ x_model x = w_model w
    /\ x_prompt x
       = format {| template := personas (w_persona w) |}
           (get_buffer_string (x_context x)) (x_input x).
Proof.
  intros Hk Hx.
  set (h := transcript st).
  set (n := (List.length h - Z.to_nat (w_memory_length w))%nat).
  exists (firstn n h), (skipn n h).
  assert (Hctx : x = request_of (chain_of w) env (loaded w h) (x_input x)).
  { destruct (main_spec env w st)
      as [_ _ He _|_ _ _ _ _ He _|input r _ _ x0 _ He _ _|input e _ _ x0 _ He _ _ _];
      rewrite He in Hx; cbn [In] in Hx; try contradiction;
      destruct Hx as [<-|[]]; reflexivity. }
  repeat split.
  - symmetry. apply firstn_skipn.
  - rewrite length_skipn. subst n. lia.
  - rewrite Hctx. cbn [request_of x_context]. apply buffer_loaded. lia.
  - rewrite Hctx. reflexivity.
  - rewrite Hctx. reflexivity.
Qed.

Lemma context_is_last_turns_witness :
  let w := sample_widgets "A4" (Some Send) in
  let x := {| x_model := gemma2_9b_it;
              x_context := [HumanMessage "A2"; AIMessage "B2";
                            HumanMessage "A3"; AIMessage "B3"];
              x_input := "A4";
              x_prompt := format {| template := personas Default |}
                            (get_buffer_string
                               [HumanMessage "A2"; AIMessage "B2";
                                HumanMessage "A3"; AIMessage "B3"]) "A4";
              x_answer := inr "an answer" |} in
  exchanges (snd (main sample_env w (Some three_turns))) = [x]
  /\ exists older recent,
       transcript (Some three_turns) = (older ++ recent)%list
       /\ List.length recent = 2%nat
       /\ x_context x = flat_map turn_messages recent.
Proof.
  intros w x.
  assert (Hx : exchanges (snd (main sample_env w (Some three_turns))) = [x])
    by (vm_compute; reflexivity).
  split; [exact Hx|].
  destruct (context_is_last_turns sample_env w (Some three_turns) x)
    as (older & recent & H1 & H2 & H3 & _).
  - cbn. lia.
  - rewrite Hx. left. reflexivity.
  - exists older, recent. repeat split; assumption.
Defined.

(** ** Failures of the chat service *)

Lemma send_input_button env w input :
  send_input env w = Some input ->
  w_clicked w = Some Send \/ w_clicked w = Some UseVoiceInput.
Proof.
  unfold send_input. destruct (w_clicked w) as [[| | |]|]; try discriminate; auto.
Qed.

(** C3, amended: when the chat service raised on the request of a send,
    by text or by voice, the execution leaves the transcript as it was,
    shows the error message, runs to its end without an exception and
    without a rerun, and has put that one request only.  The session
    state is the one before the attempt, with the widget values under
    the keys of the persona and of the text area, but for the start time:
    a text send has set it, when it was unset, before it called the
    service. *)
Theorem chat_failure_keeps_transcript (env : environment) (w : widgets)
    (st : option session_state) (x : exchange) (e : exn) :
  In x (exchanges (snd (main env w st))) ->
  x_answer x = inl e ->
  let r := main env w st in
  chat_history (session_after r) = transcript st
  /\ In (st_error ("⚠️ Error: " ++ str_of e)) (page (snd r))
  /\ (exists memory, fst r = Val memory)
  /\ exchanges (snd r) = [x]
  /\ (w_clicked w = Some Send \/ w_clicked w = Some UseVoiceInput)
  /\ session_after r
     = set_start_time (start_after env w (initialize_session_state st))
         (set_user_input (w_user_input w)
            (set_selected_persona (w_persona w) (initialize_session_state st))).
Proof.
  intros Hx Ha r. subst r.
  destruct (main_spec env w st)
    as [_ _ He _|_ _ _ _ _ He _|input r _ _ x0 Ha0 He _ _
       |input e0 _ Hi x0 Ha0 He Hst Hf Hp];
    rewrite He in Hx; cbn [In] in Hx; try contradiction;
    destruct Hx as [<-|[]]; [congruence|].
  assert (e0 = e) as -> by congruence.
  rewrite Hst, He, Hf. repeat split; trivial.
  - eexists; reflexivity.
  - apply (send_input_button _ _ _ Hi).
Qed.

Lemma chat_failure_keeps_transcript_witness :
  let w := sample_widgets "A4" (Some Send) in
  let e := {| class_of := OtherException; str_of := "503 Service Unavailable" |} in
  let r := main failing_env w (Some three_turns) in
  chat_history (session_after r) = chat_history three_turns
  /\ In (st_error ("⚠️ Error: " ++ str_of e)) (page (snd r))
  /\ (exists memory, fst r = Val memory)
  /\ List.length (exchanges (snd r)) = 1%nat.
Proof.
  intros w e r.
  assert (Hx : exists x, exchanges (snd r) = [x] /\ x_answer x = inl e)
    by (eexists; split; vm_compute; reflexivity).
  destruct Hx as (x & Hx & Ha).
  destruct (chat_failure_keeps_transcript failing_env w (Some three_turns) x e)
    as (H1 & H2 & H3 & H4 & _).
  - fold r. rewrite Hx. left. reflexivity.
  - exact Ha.
  - exact (conj H1 (conj H2 (conj H3 (f_equal (@List.length exchange) H4)))).
Defined.

(** C3: a first text send on which the chat service raised does change
    the session state: it leaves the start time set, while the transcript
    is as before. *)
Lemma chat_failure_leaves_start_time_set :
  let r := main failing_env (sample_widgets "hello" (Some Send))
             (Some blank_session) in
  (exists x e, exchanges (snd r) = [x] /\ x_answer x = inl e)
  /\ chat_history (session_after r) = chat_history blank_session
  /\ start_time blank_session = None
  /\ start_time (session_after r) = Some (now failing_env)
  /\ start_time (session_after r) <> start_time blank_session.
Proof.
  split; [eexists; eexists; split; vm_compute; reflexivity|].
  split; [reflexivity|]. split; [reflexivity|]. split; [reflexivity|].
  vm_compute. discriminate.
Qed.

(** ** Successful sends, from their inputs *)

Lemma speaks_all_displayed env h : speaks_all env h -> spoken env h = None.
Proof.
  unfold speaks_all. induction h as [|m rest IH]; cbn [spoken]; [reflexivity|].
  intros H. inversion H as [|? ? [a Ha] Hrest]; subst.
  rewrite Ha. now apply IH.
Qed.


Lemma submits_send_input a input :
  submits a input -> send_input (a_env a) (a_widgets a) = Some input.
Proof.
  unfold submits, send_input. intros [(-> & <- & Hs)|(-> & Hne & Hv)].
  - destruct (PyStr.strip _); [now elim Hs | reflexivity].
  - specialize (Hv {| session := blank_session; page := []; exchanges := [] |}).
    rewrite get_voice_input_run in Hv. cbn [fst] in Hv. rewrite Hv.
    destruct input; [now elim Hne | reflexivity].
Qed.

Lemma send_succeeds_appends a st input response :
  send_succeeds a (transcript st) input response ->
  exchanges (snd (interact a st))
  = [request_of (chain_of (a_widgets a)) (a_env a)
       (loaded (a_widgets a) (transcript st)) input]
  /\ map turn_of (exchanges (snd (interact a st)))
     = [{| human := input; AI := response |}]
  /\ chat_history (session_after (interact a st))
     = (transcript st ++ [{| human := input; AI := response |}])%list.
Proof.
  intros (Hsub & Hsp & Hg).
  pose proof (submits_send_input a input Hsub) as Hi.
  apply speaks_all_displayed in Hsp. unfold transcript in *.
  destruct (interact_main a st) as (-> & _ & ->).
  destruct (main_spec (a_env a) (a_widgets a) st)
    as [Hc _ _ _|_ [Hq|Hq] _ _ _ _ _|input' r _ Hi' x0 Ha0 He Hst _
       |input' e _ Hi' x0 Ha0 He _ _ _]; try congruence.
  - destruct (send_input_button _ _ _ Hi); congruence.
  - assert (input' = input) as -> by congruence.
    assert (Hg' : x_answer x0 = inr response) by exact Hg.
    assert (r = response) as -> by congruence.
    rewrite He, Hst. repeat split.
    cbn [map]. unfold turn_of. subst x0. rewrite Ha0. reflexivity.
  - assert (input' = input) as -> by congruence.
    assert (Hg' : x_answer x0 = inr response) by exact Hg.
    congruence.
Qed.

Lemma sends_succeed_play actions :
  forall turns st,
    sends_succeed (transcript st) actions turns ->
    transcript (play actions st) = (transcript st ++ turns)%list
    /\ map turn_of (requests actions st) = turns
    /\ List.length turns = List.length actions
    /\ Forall2 (fun a t => submits a (human t)) actions turns.
Proof.
  induction actions as [|a rest IH]; intros [|t more] st Hok;
    cbn [sends_succeed] in Hok; try contradiction.
  - cbn [play requests map]. rewrite app_nil_r. repeat split. constructor.
  - destruct Hok as [Ha Hrest].
    destruct (send_succeeds_appends a st _ _ Ha) as (_ & Hx & Hh).
    assert (Ht : {| human := human t; AI := AI t |} = t) by (destruct t; reflexivity).
    rewrite Ht in Hx, Hh.
    destruct (IH more (Some (session_after (interact a st)))) as (H1 & H2 & H3 & H4).
    { unfold transcript at 1. cbn [initialize_session_state]. rewrite Hh. exact Hrest. }
    cbn [play requests]. rewrite H1, map_app, Hx, H2.
    unfold transcript at 1. cbn [initialize_session_state].
    rewrite Hh, <- app_assoc. cbn [app List.length].
    repeat split; [now rewrite H3|].
    constructor; [apply Ha | exact H4].
Qed.

(** C1: take N sends from a session with an empty transcript, by text or
    by voice, each with a non-empty input and with a response of the chat
    service to its request, the history being displayed each time.  Then
    the transcript after the last send has N turns: turn i pairs the text
    that send i submitted with the response the service returned to it,
    and these are the answered requests of the session, in order. *)
Theorem successful_sends_fill_transcript (actions : list action)
    (turns : list message) :
  sends_succeed [] actions turns ->
  transcript (play actions None) = turns
  /\ List.length (transcript (play actions None)) = List.length actions
  /\ map turn_of (requests actions None) = turns
  /\ Forall2 (fun a t => submits a (human t)) actions turns.
Proof.
  intros Hok.
  destruct (sends_succeed_play actions turns None Hok) as (H1 & H2 & H3 & H4).
  cbn [transcript initialize_session_state chat_history app] in H1.
  repeat split; trivial.
  change (chat_history (initialize_session_state (play actions None)))
    with (transcript (play actions None)).
  now rewrite H1.
Qed.

Lemma successful_sends_fill_transcript_witness :
  let actions := [sample_action "hello" (Some Send);
                  sample_action "" (Some UseVoiceInput);
                  sample_action " again " (Some Send)] in
  let turns := [{| human := "hello"; AI := "an answer" |};
                {| human := "what is a monad"; AI := "an answer" |};
                {| human := " again "; AI := "an answer" |}] in
  sends_succeed [] actions turns
  /\ transcript (play actions None) = turns
  /\ List.length (transcript (play actions None)) = 3%nat.
Proof.
  intros actions turns.
  assert (H : sends_succeed [] actions turns).
  { assert (Hs : forall h, speaks_all sample_env h).
    { intros h. apply Forall_forall. intros m _. eexists. reflexivity. }
    cbn [actions turns sends_succeed app human AI].
    split; [|split; [|split; [|exact I]]];
      (split; [|split; [apply Hs | reflexivity]]).
    - left. split; [reflexivity|]. split; [reflexivity | vm_compute; discriminate].
    - right. split; [reflexivity|]. split; [discriminate | intros s; reflexivity].
    - left. split; [reflexivity|]. split; [reflexivity | vm_compute; discriminate]. }
  destruct (successful_sends_fill_transcript actions turns H) as (H1 & H2 & _).
  exact (conj H (conj H1 H2)).
Defined.

(** ** Voice input *)

Lemma heard_recognition env :
  microphone env = None ->
  heard env =
  match recognition env with
  | inr text => Val text
  | inl e =>
      match class_of e with
      | OtherException => Raise e
      | _ => Val ""
      end
  end.
Proof. unfold heard. now intros ->. Qed.

(** C4: with the microphone open, a listen timeout, unintelligible audio
    and a failed request to the recognition service each make
    [get_voice_input] return the empty string, as a value and not as an
    exception; when the service recognised a text, that text is
    returned.  The session state and the chat requests are left alone. *)
Theorem get_voice_input_never_raises (env : environment) (s : run_state) :
  microphone env = None ->
  (recognition_failure env -> fst (get_voice_input env s) = Val "")
  /\ (forall a text,
        listen env = inr a -> recognize_google env a = inr text ->
        fst (get_voice_input env s) = Val text)
  /\ session (snd (get_voice_input env s)) = session s
  /\ exchanges (snd (get_voice_input env s)) = exchanges s.
Proof.
  intros Hm. rewrite get_voice_input_run, (heard_recognition env Hm).
  cbn [fst snd show session exchanges]. unfold recognition.
  repeat split.
  - intros [e Hl Hc|a e Hl Hr Hc|a e Hl Hr Hc]; rewrite Hl, ?Hr, Hc; reflexivity.
  - intros a text Hl Hr. now rewrite Hl, Hr.
Qed.

Lemma get_voice_input_never_raises_witness :
  microphone silent_env = None
  /\ recognition_failure silent_env
  /\ fst (get_voice_input silent_env
            {| session := three_turns; page := []; exchanges := [] |})
     = Val "".
Proof.
  assert (Hf : recognition_failure silent_env).
  { eapply listen_timeout; reflexivity. }
  split; [reflexivity|]. split; [exact Hf|].
  apply (get_voice_input_never_raises silent_env
           {| session := three_turns; page := []; exchanges := [] |} eq_refl).
  exact Hf.
Defined.

(** ** Empty input *)

(** C9: a press of the send button over an empty or blank text area, and
    a press of the voice button whose capture comes back empty, put no
    request to the chat service, append nothing to the transcript and
    leave the start time as it was. *)
Theorem empty_input_is_no_op (env : environment) (w : widgets)
    (st : option session_state) :
  (w_clicked w = Some Send /\ PyStr.strip (w_user_input w) = "")
  \/ (w_clicked w = Some UseVoiceInput
      /\ forall s, fst (get_voice_input env s) = Val "") ->
  let r := main env w st in
  exchanges (snd r) = []
  /\ chat_history (session_after r) = transcript st
  /\ start_time (session_after r) = start_time (initialize_session_state st)
  /\ total_messages (session_after r)
     = total_messages (initialize_session_state st).
Proof.
  intros H r. subst r.
  assert (Hn : send_input env w = None).
  { unfold send_input. destruct H as [[-> Hs]|[-> Hv]].
    - now rewrite Hs.
    - specialize (Hv {| session := initialize_session_state st;
                        page := []; exchanges := [] |}).
      rewrite get_voice_input_run in Hv. cbn [fst] in Hv. now rewrite Hv. }
  destruct (main_spec env w st)
    as [Hc _ _ _|_ _ Hh Ht Hm He _|input r _ Hi x0 _ _ _ _
       |input e0 _ Hi x0 _ _ _ _ _]; try congruence.
  - destruct H as [[Hc' _]|[Hc' _]]; congruence.
  - repeat split; assumption.
Qed.

Lemma empty_input_is_no_op_witness :
  let w := sample_widgets "  	 " (Some Send) in
  let r := main sample_env w (Some three_turns) in
  PyStr.strip (w_user_input w) = ""
  /\ exchanges (snd r) = []
  /\ chat_history (session_after r) = chat_history three_turns
  /\ start_time (session_after r) = start_time three_turns.
Proof.
  intros w r.
  assert (Hs : PyStr.strip (w_user_input w) = "") by reflexivity.
  destruct (empty_input_is_no_op sample_env w (Some three_turns))
    as (H1 & H2 & H3 & _).
  - left. split; [reflexivity | exact Hs].
  - exact (conj Hs (conj H1 (conj H2 H3))).
Defined.

(** ** Turns are never edited *)

(** C8: whatever the session state, the services and the widgets, an
    execution of the script, and the interaction it belongs to, leave
    the transcript with every turn it held, in place and unchanged, and
    with at most one turn more after them; the only exception is the
    clear button, which leaves the empty transcript. *)
Theorem turns_are_immutable (a : action) (st : option session_state) :
  let after := chat_history (session_after (interact a st)) in
  let r := main (a_env a) (a_widgets a) st in
  chat_history (session_after r) = after
  /\ ((exists added,
         after = (transcript st ++ added)%list /\ (List.length added <= 1)%nat)
      \/ (w_clicked (a_widgets a) = Some ClearChatHistory /\ after = [])).
Proof.
  intros after r. subst after r.
  destruct (interact_main a st) as (-> & _ & _).
  split; [reflexivity|].
  destruct (main_spec (a_env a) (a_widgets a) st)
    as [Hc Hst _ _|_ _ Hh _ _ _ _|input r _ _ x0 _ _ Hst _
       |input e0 _ _ x0 _ _ Hst _ _].
  - right. rewrite Hst. split; [assumption | reflexivity].
  - left. exists []. rewrite Hh, app_nil_r. split; [reflexivity | cbn; lia].
  - left. exists [{| human := input; AI := r |}]. rewrite Hst.
    split; [reflexivity | cbn; lia].
  - left. exists []. rewrite Hst, app_nil_r. split; [reflexivity | cbn; lia].
Qed.

(** ** What the pages hold *)

Lemma statistics_shown env st :
  shows_statistics (statistics env st)
  = match start_time st with Some _ => true | None => false end.
Proof. unfold statistics. now destruct (start_time st). Qed.

Lemma rendered_no_statistics env p h :
  shows_statistics (rendered env p h) = false.
Proof.
  unfold shows_statistics.
  induction h as [|m rest IH]; [reflexivity|].
  cbn [rendered]. rewrite existsb_app.
  destruct (gTTS env (AI m)); [reflexivity|].
  rewrite existsb_app, IH. reflexivity.
Qed.

Lemma voice_page_no_statistics env : shows_statistics (voice_page env) = false.
Proof.
  unfold voice_page. destruct (microphone env); [reflexivity|].
  destruct (recognition env) as [e|]; [|reflexivity].
  destruct (class_of e); reflexivity.
Qed.

Lemma footer_page_no_statistics w st : shows_statistics (footer_page w st) = false.
Proof. reflexivity. Qed.

Lemma shows_statistics_app a b :
  shows_statistics (a ++ b) = shows_statistics a || shows_statistics b.
Proof. apply existsb_app. Qed.

Ltac no_statistics :=
  unfold finish, show; cbn [snd page];
  rewrite ?shows_statistics_app, ?rendered_no_statistics,
    ?voice_page_no_statistics, ?footer_page_no_statistics;
  cbn [shows_statistics existsb is_statistic orb];
  rewrite ?orb_false_r.

Lemma main_shows_statistics env w st0 :
  shows_statistics (page (snd (main env w st0)))
  = match start_time (initialize_session_state st0) with
    | Some _ => true
    | None => false
    end.
Proof.
  set (st := initialize_session_state st0).
  assert (Hs : shows_statistics (statistics env (set_selected_persona (w_persona w) st))
               = match start_time st with Some _ => true | None => false end)
    by (rewrite statistics_shown; reflexivity).
  assert (Hhead : shows_statistics heading = false) by reflexivity.
  rewrite main_run. cbn zeta. fold st.
  destruct (st_button w ClearChatHistory).
  { no_statistics. now rewrite Hhead, Hs. }
  cbn [chat_history set_selected_persona].
  destruct (spoken env (chat_history st)).
  { no_statistics. now rewrite Hhead, Hs. }
  assert (Hready : shows_statistics (page (ready env w st))
                   = match start_time st with Some _ => true | None => false end).
  { unfold ready. no_statistics. now rewrite Hhead, Hs. }
  assert (Hstarted : page (started env (ready env w st)) = page (ready env w st)).
  { unfold started. now destruct (start_time (session (ready env w st))). }
  rewrite buttons_run.
  destruct (w_clicked w) as [[| | |]|].
  - no_statistics. exact Hready.
  - destruct (heard env) as [v| |]; [destruct (PyStr.truthy v)| |].
    + unfold ask_then_finish. cbn zeta.
      destruct (x_answer _); no_statistics; exact Hready.
    + no_statistics. exact Hready.
    + no_statistics. exact Hready.
    + no_statistics. exact Hready.
  - destruct (PyStr.truthy _).
    + unfold ask_then_finish. cbn zeta.
      destruct (x_answer _); no_statistics; rewrite Hstarted; exact Hready.
    + no_statistics. exact Hready.
  - no_statistics. exact Hready.
  - no_statistics. exact Hready.
Qed.

Lemma content_app a b : content (a ++ b) = (content a ++ content b)%list.
Proof. apply filter_app. Qed.

Lemma content_rendered env p h :
  content (rendered env p h) = content (rendered env Default h).
Proof.
  induction h as [|m rest IH]; [reflexivity|].
  cbn [rendered]. rewrite !content_app.
  destruct (gTTS env (AI m)); [reflexivity|].
  rewrite !content_app, IH. reflexivity.
Qed.

Lemma content_statistics env st : content (statistics env st) = [].
Proof. unfold statistics. now destruct (start_time st). Qed.

Lemma main_page env w st0 :
  st_button w ClearChatHistory = false ->
  exists below,
    page (snd (main env w st0))
    = (front env w (initialize_session_state st0) ++ below)%list
    /\ content below
       = match spoken env (transcript st0) with
         | Some _ => []
         | None => button_content env w
         end.
Proof.
  intros Hb. unfold transcript, button_content.
  set (st := initialize_session_state st0).
  rewrite main_run. cbn zeta. fold st. rewrite Hb.
  cbn [chat_history set_selected_persona].
  destruct (spoken env (chat_history st)).
  { exists []. cbn [snd page]. unfold front.
    rewrite app_nil_r, <- ?app_assoc. split; reflexivity. }
  assert (Hready : page (ready env w st)
                   = (front env w st ++ [st_markdown "### 💭 Your Message" false])%list).
  { unfold ready, front. cbn [page]. now rewrite <- ?app_assoc. }
  assert (Hstarted : page (started env (ready env w st)) = page (ready env w st)).
  { unfold started. now destruct (start_time (session (ready env w st))). }
  rewrite buttons_run.
  destruct (w_clicked w) as [[| | |]|].
  - eexists. unfold finish, show. cbn [snd page].
    rewrite Hready, <- ?app_assoc. split; reflexivity.
  - destruct (heard env) as [v| |]; [destruct (PyStr.truthy v)| |].
    + unfold ask_then_finish. cbn zeta.
      destruct (x_answer _); eexists; unfold finish, show; cbn [snd page];
        rewrite Hready, <- ?app_assoc; (split; [reflexivity|]);
        cbn [app]; change (content (?a :: ?l)) with (content l);
        rewrite content_app; cbn; now rewrite ?app_nil_r.
    + eexists. unfold finish, show. cbn [snd page].
      rewrite Hready, <- ?app_assoc. split; [reflexivity|].
      cbn [app]. change (content (?a :: ?l)) with (content l).
      rewrite content_app. cbn. now rewrite ?app_nil_r.
    + eexists. unfold show. cbn [snd page].
      rewrite Hready, <- ?app_assoc. split; [reflexivity|]. reflexivity.
    + eexists. unfold show. cbn [snd page].
      rewrite Hready, <- ?app_assoc. split; [reflexivity|]. reflexivity.
  - destruct (PyStr.truthy _).
    + unfold ask_then_finish. cbn zeta.
      destruct (x_answer _); eexists; unfold finish, show; cbn [snd page];
        rewrite Hstarted, Hready, <- ?app_assoc; split; reflexivity.
    + eexists. unfold finish, show. cbn [snd page].
      rewrite Hready, <- ?app_assoc. split; reflexivity.
  - eexists. unfold finish, show. cbn [snd page].
    rewrite Hready, <- ?app_assoc. split; reflexivity.
  - eexists. unfold finish, show. cbn [snd page].
    rewrite Hready, <- ?app_assoc. split; reflexivity.
Qed.

(** ** The start time and the statistics panel *)

Lemma start_time_after_main env w st t :
  start_time (session_after (main env w st)) = Some t ->
  start_time (initialize_session_state st) = Some t
  \/ (w_clicked w = Some Send
      /\ PyStr.strip (w_user_input w) <> ""
      /\ start_time (initialize_session_state st) = None
      /\ t = now env).
Proof.
  destruct (main_spec env w st)
    as [_ Hst _ _|_ _ _ Ht _ _ _|input r _ Hi x0 _ _ Hst _
       |input e0 _ Hi x0 _ _ Hst _ _];
    try (rewrite Hst; cbn [start_time cleared set_user_input set_start_time
                           set_chat_history append_chat_history]).
  - discriminate.
  - rewrite Ht. auto.
  - unfold start_after, send_input in *.
    destruct (w_clicked w) as [[| | |]|]; auto.
    destruct (start_time (initialize_session_state st)); auto.
    intros [= <-]. right. repeat split; trivial.
    intros Hs. rewrite Hs in Hi. discriminate.
  - unfold start_after, send_input in *.
    destruct (w_clicked w) as [[| | |]|]; auto.
    destruct (start_time (initialize_session_state st)); auto.
    intros [= <-]. right. repeat split; trivial.
    intros Hs. rewrite Hs in Hi. discriminate.
Qed.

Lemma start_time_unset_without_send env w st :
  w_clicked w <> Some Send ->
  start_time (initialize_session_state st) = None ->
  start_time (session_after (main env w st)) = None.
Proof.
  intros Hc Hn.
  destruct (start_time (session_after (main env w st))) as [t|] eqn:Ht; trivial.
  destruct (start_time_after_main env w st t Ht) as [H|(H & _)]; congruence.
Qed.

Lemma voice_session_trace actions :
  forall st,
    start_time (initialize_session_state st) = None ->
    Forall (fun a => w_clicked (a_widgets a) = Some UseVoiceInput) actions ->
    Forall unstarted (trace actions st)
    /\ start_time (initialize_session_state (play actions st)) = None.
Proof.
  induction actions as [|a rest IH]; intros st Hn Hv; cbn [trace play].
  - split; [constructor | assumption].
  - inversion Hv as [|? ? Ha Hrest]; subst.
    assert (H1 : start_time (session_after (main (a_env a) (a_widgets a) st)) = None)
      by (apply start_time_unset_without_send; congruence).
    assert (Hi : start_time (session_after (interact a st)) = None).
    { destruct (interact_main a st) as (_ & -> & _). exact H1. }
    destruct (IH (Some (session_after (interact a st))) Hi Hrest) as [Ht Hp].
    split; [|exact Hp].
    apply Forall_app. split; [|exact Ht].
    unfold executions. cbn zeta.
    assert (Q1 : unstarted (main (a_env a) (a_widgets a) st)).
    { split; [exact H1|]. rewrite main_shows_statistics. now rewrite Hn. }
    destruct (fst (main (a_env a) (a_widgets a) st));
      apply Forall_cons; try exact Q1; try apply Forall_nil.
    apply Forall_cons; [|apply Forall_nil]. split.
    + apply start_time_unset_without_send; [discriminate | exact H1].
    + rewrite main_shows_statistics. cbn [initialize_session_state]. now rewrite H1.
Qed.

(** C10: the start time an execution leaves is the one it found, unless
    the send button was pressed over a non-blank text while the start time
    was unset, in which case it is the time of that execution.  So in a
    session of voice sends from a fresh session state no execution,
    reruns included, leaves a start time or shows the statistics panel. *)
Theorem only_text_send_starts_timer :
  (forall env w st t,
      start_time (session_after (main env w st)) = Some t ->
      start_time (initialize_session_state st) = Some t
      \/ (w_clicked w = Some Send
          /\ PyStr.strip (w_user_input w) <> ""
          /\ start_time (initialize_session_state st) = None
          /\ t = now env))
  /\ (forall actions,
        Forall (fun a => w_clicked (a_widgets a) = Some UseVoiceInput) actions ->
        Forall unstarted (trace actions None)
        /\ start_time (initialize_session_state (play actions None)) = None).
Proof.
  split.
  - exact start_time_after_main.
  - intros actions Hv. apply voice_session_trace; [reflexivity | exact Hv].
Qed.

Lemma only_text_send_starts_timer_witness :
  let actions := [sample_action "" (Some UseVoiceInput);
                  sample_action "" (Some UseVoiceInput)] in
  List.length (transcript (play actions None)) = 2%nat
  /\ List.length (trace actions None) = 4%nat
  /\ Forall unstarted (trace actions None)
  /\ start_time (initialize_session_state (play actions None)) = None
  /\ start_time (session_after
                   (main sample_env (sample_widgets "hello" (Some Send)) None))
     = Some (now sample_env).
Proof.
  intros actions.
  destruct only_text_send_starts_timer as [_ Hvoice].
  destruct (Hvoice actions) as [Ht Hs].
  - repeat constructor.
  - split; [reflexivity|]. split; [reflexivity|]. split; [exact Ht|].
    split; [exact Hs | reflexivity].
Defined.

(** ** The header lines of a page *)

Lemma headers_app a b : headers (a ++ b) = (headers a ++ headers b)%list.
Proof. apply filter_app. Qed.

Lemma is_header_assistant p : is_header (assistant_header p) = true.
Proof. destruct p; reflexivity. Qed.

Lemma headers_turn_head p m : headers (turn_head p m) = [assistant_header p].
Proof. destruct p; reflexivity. Qed.

Lemma headers_rendered env p h :
  Forall (fun e => e = assistant_header p) (headers (rendered env p h))
  /\ (spoken env h = None ->
      headers (rendered env p h) = map (fun _ => assistant_header p) h).
Proof.
  induction h as [|m rest [IH1 IH2]]; cbn [rendered spoken map].
  - split; [constructor | reflexivity].
  - rewrite headers_app, headers_turn_head.
    destruct (gTTS env (AI m)) as [e|a].
    + split; [repeat constructor | discriminate].
    + rewrite headers_app. cbn [app]. split.
      * constructor; [reflexivity | exact IH1].
      * intros Hs. now rewrite (IH2 Hs).
Qed.

Lemma headers_statistics env st : headers (statistics env st) = [].
Proof. unfold statistics. now destruct (start_time st). Qed.

Lemma headers_voice_page env : headers (voice_page env) = [].
Proof.
  unfold voice_page. destruct (microphone env); [reflexivity|].
  destruct (recognition env) as [e|]; [|reflexivity].
  destruct (class_of e); reflexivity.
Qed.

Lemma headers_footer_page w st : headers (footer_page w st) = [].
Proof. reflexivity. Qed.

Ltac only_headers :=
  unfold finish, show; cbn [snd page];
  rewrite ?headers_app, ?headers_statistics, ?headers_voice_page,
    ?headers_footer_page;
  cbn [headers filter is_header app];
  rewrite ?app_nil_r.

Lemma main_headers env w st0 :
  headers (page (snd (main env w st0)))
  = if st_button w ClearChatHistory then []
    else headers (rendered env (w_persona w) (transcript st0)).
Proof.
  unfold transcript. set (st := initialize_session_state st0).
  assert (Hhead : headers heading = []) by reflexivity.
  rewrite main_run. cbn zeta. fold st.
  destruct (st_button w ClearChatHistory).
  { only_headers. now rewrite Hhead. }
  cbn [chat_history set_selected_persona].
  destruct (spoken env (chat_history st)).
  { only_headers. now rewrite Hhead. }
  assert (Hready : headers (page (ready env w st))
                   = headers (rendered env (w_persona w) (chat_history st))).
  { unfold ready. only_headers. now rewrite Hhead. }
  assert (Hstarted : page (started env (ready env w st)) = page (ready env w st)).
  { unfold started. now destruct (start_time (session (ready env w st))). }
  rewrite buttons_run.
  destruct (w_clicked w) as [[| | |]|].
  - only_headers. exact Hready.
  - destruct (heard env) as [v| |]; [destruct (PyStr.truthy v)| |].
    + unfold ask_then_finish. cbn zeta.
      destruct (x_answer _); only_headers; exact Hready.
    + only_headers. exact Hready.
    + only_headers. exact Hready.
    + only_headers. exact Hready.
  - destruct (PyStr.truthy _).
    + unfold ask_then_finish. cbn zeta.
      destruct (x_answer _); only_headers; rewrite Hstarted; exact Hready.
    + only_headers. exact Hready.
  - only_headers. exact Hready.
  - only_headers. exact Hready.
Qed.

(** ** Changing the persona or the model *)

Lemma header_in_front env w st m :
  In m (chat_history st) ->
  In (st_write ("🤖 Assistant (" ++ persona_label (w_persona w) ++ " mode)"))
     (front env w st).
Proof.
  intros Hm. unfold front.
  apply in_or_app; right. apply in_or_app; right. apply in_or_app; right.
  destruct (chat_history st) as [|m0 rest]; [contradiction|].
  cbn [rendered]. apply in_or_app; left.
  unfold turn_head. right; right; left. reflexivity.
Qed.

Lemma content_main env w st0 :
  st_button w ClearChatHistory = false ->
  content (page (snd (main env w st0)))
  = (content (rendered env Default (transcript st0))
     ++ match spoken env (transcript st0) with
        | Some _ => []
        | None => button_content env w
        end)%list.
Proof.
  intros Hb. destruct (main_page env w st0 Hb) as (below & -> & Hc).
  unfold front. rewrite !content_app, Hc, content_statistics, content_rendered.
  reflexivity.
Qed.

(** C6: the loop that displays the history labels every stored turn with
    the persona that is selected now: a turn stored under the default
    persona is labelled with the expert persona once that one is chosen. *)
Lemma persona_change_relabels_stored_turns :
  In (st_write "🤖 Assistant (Default mode)")
     (page (snd (main sample_env (sample_widgets "" None) (Some one_turn))))
  /\ In (st_write "🤖 Assistant (Expert mode)")
        (page (snd (main sample_env (expert_widgets "" None) (Some one_turn))))
  /\ page (snd (main sample_env (sample_widgets "" None) (Some one_turn)))
     <> page (snd (main sample_env (expert_widgets "" None) (Some one_turn)))
  /\ ~ view_ignores_persona.
Proof.
  split; [vm_compute; tauto|]. split; [vm_compute; tauto|].
  split; [vm_compute; discriminate|].
  intros H.
  specialize (H sample_env (chat_history one_turn) one_turn Default Expert).
  vm_compute in H. discriminate H.
Qed.

(** C6, amended: when the widgets change in the persona and in the model
    only, the stored turns are the same and the page shows the same text
    and audio elements for them; a request of the execution goes to the
    model and uses the persona selected now; and every header line of a
    displayed turn names the persona selected now: all the header lines
    of the page do, and there is one for each stored turn when all of them
    are displayed. *)
Theorem selection_change_keeps_content (env : environment)
    (st : option session_state) (w w' : widgets) :
  w_clicked w' = w_clicked w ->
  content (page (snd (main env w' st))) = content (page (snd (main env w st)))
  /\ (w_clicked w' = None ->
      chat_history (session_after (main env w' st)) = transcript st)
  /\ (forall x, In x (exchanges (snd (main env w' st))) ->
        x_model x = w_model w'
        /\ x_prompt x
           = format {| template := personas (w_persona w') |}
               (get_buffer_string (x_context x)) (x_input x))
  /\ (forall m, In m (transcript st) ->
        w_clicked w' <> Some ClearChatHistory ->
        In (st_write ("🤖 Assistant (" ++ persona_label (w_persona w') ++ " mode)"))
           (page (snd (main env w' st))))
  /\ Forall (fun e => e = assistant_header (w_persona w'))
            (headers (page (snd (main env w' st))))
  /\ (w_clicked w' <> Some ClearChatHistory ->
      speaks_all env (transcript st) ->
      headers (page (snd (main env w' st)))
      = map (fun _ => assistant_header (w_persona w')) (transcript st)).
Proof.
  intros Hc.
  split; [|split; [|split; [|split; [|split]]]].
  - destruct (st_button w ClearChatHistory) eqn:Hb.
    + assert (Hb' : st_button w' ClearChatHistory = true)
        by (unfold st_button in *; now rewrite Hc).
      rewrite !main_run. cbn zeta. rewrite Hb, Hb'. cbn [snd page].
      rewrite !content_app, !content_statistics. reflexivity.
    + assert (Hb' : st_button w' ClearChatHistory = false)
        by (unfold st_button in *; now rewrite Hc).
      rewrite (content_main env w st Hb), (content_main env w' st Hb').
      unfold button_content. now rewrite Hc.
  - intros Hn. apply (main_no_button env w' st Hn).
  - intros x Hx.
    destruct (main_spec env w' st)
      as [_ _ He _|_ _ _ _ _ He _|input r _ _ x0 _ He _ _|input e _ _ x0 _ He _ _ _];
      rewrite He in Hx; cbn [In] in Hx; try contradiction;
      destruct Hx as [<-|[]]; split; reflexivity.
  - intros m Hm Hnc.
    assert (Hb : st_button w' ClearChatHistory = false).
    { unfold st_button. destruct (w_clicked w') as [[| | |]|]; trivial.
      now elim Hnc. }
    destruct (main_page env w' st Hb) as (below & -> & _).
    apply in_or_app; left. apply (header_in_front env w' _ m Hm).
  - rewrite main_headers. destruct (st_button w' ClearChatHistory).
    + constructor.
    + apply (headers_rendered env (w_persona w') (transcript st)).
  - intros Hnc Hs.
    assert (Hb : st_button w' ClearChatHistory = false).
    { unfold st_button. destruct (w_clicked w') as [[| | |]|]; trivial.
      now elim Hnc. }
    rewrite main_headers, Hb.
    apply (headers_rendered env (w_persona w') (transcript st)).
    apply speaks_all_displayed. exact Hs.
Qed.

Lemma selection_change_keeps_content_witness :
  let before := main sample_env (sample_widgets "" None) (Some three_turns) in
  let after := main sample_env (expert_widgets "" None) (Some three_turns) in
  content (page (snd after)) = content (page (snd before))
  /\ chat_history (session_after after) = chat_history three_turns
  /\ headers (page (snd before))
     = [st_write "🤖 Assistant (Default mode)";
        st_write "🤖 Assistant (Default mode)";
        st_write "🤖 Assistant (Default mode)"]
  /\ headers (page (snd after))
     = [st_write "🤖 Assistant (Expert mode)";
        st_write "🤖 Assistant (Expert mode)";
        st_write "🤖 Assistant (Expert mode)"].
Proof.
  intros before after.
  destruct (selection_change_keeps_content sample_env (Some three_turns)
              (sample_widgets "" None) (expert_widgets "" None) eq_refl)
    as (H1 & H2 & _ & _ & _ & H6).
  assert (Hs : speaks_all sample_env (transcript (Some three_turns))).
  { apply Forall_forall. intros m _. eexists. reflexivity. }
  assert (Hn : w_clicked (expert_widgets "" None) <> Some ClearChatHistory)
    by discriminate.
  exact (conj H1 (conj (H2 eq_refl) (conj eq_refl (H6 Hn Hs)))).
Defined.

(** ** The new topic button *)

Lemma new_topic_run env w st :
  w_clicked w = Some NewTopic ->
  chat_history (session_after (interact {| a_env := env; a_env_rerun := env;
                                           a_widgets := w |} st))
  = transcript st
  /\ exchanges (snd (main env w st)) = []
  /\ (spoken env (transcript st) = None ->
      fst (main env w st) = Val (clear (loaded w (transcript st)))
      /\ In (st_success "Memory cleared for new topic!")
            (page (snd (main env w st)))).
Proof.
  intros Hc. split; [|split].
  - destruct (interact_main {| a_env := env; a_env_rerun := env; a_widgets := w |} st)
      as (-> & _ & _). cbn [a_env a_widgets]. unfold transcript.
    destruct (main_spec env w st)
      as [Hc' _ _ _|_ _ Hh _ _ _ _|input r _ Hi x0 _ _ _ _|input e _ Hi x0 _ _ _ _ _];
      [congruence | exact Hh | exfalso | exfalso];
      unfold send_input in Hi; rewrite Hc in Hi; discriminate.
  - destruct (main_spec env w st)
      as [Hc' _ _ _|_ _ _ _ _ He _|input r _ Hi x0 _ _ _ _|input e _ Hi x0 _ _ _ _ _];
      [congruence | exact He | exfalso | exfalso];
      unfold send_input in Hi; rewrite Hc in Hi; discriminate.
  - unfold transcript. intros Hs. run_main.
    cbn [chat_history set_selected_persona]. rewrite Hs, buttons_run, Hc.
    unfold finish, show. cbn [fst snd page]. split; [reflexivity|].
    apply in_or_app; left. apply in_or_app; right. left. reflexivity.
Qed.

(** The request that follows a press of the new topic button carries the
    window of the whole transcript, as if the button had not been
    pressed. *)
Lemma context_after_new_topic env w st env' w' x :
  w_clicked w = Some NewTopic ->
  0 < w_memory_length w' ->
  let st' := session_after (interact {| a_env := env; a_env_rerun := env;
                                        a_widgets := w |} st) in
  In x (exchanges (snd (main env' w' (Some st')))) ->
  x_context x
  = flat_map turn_messages
      (skipn (List.length (transcript st) - Z.to_nat (w_memory_length w'))
             (transcript st)).
Proof.
  intros Hc Hk st' Hx.
  destruct (new_topic_run env w st Hc) as (Hh & _ & _). fold st' in Hh.
  rewrite <- Hh, <- (buffer_loaded w' (chat_history st') Hk).
  destruct (main_spec env' w' (Some st'))
    as [_ _ He _|_ _ _ _ _ He _|input r _ _ x0 _ He _ _|input e _ _ x0 _ He _ _ _];
    rewrite He in Hx; cbn [In] in Hx; try contradiction;
    destruct Hx as [<-|[]]; reflexivity.
Qed.

(** C7: on a session that holds the turn (A1,B1), the execution of the
    new topic button empties its memory object, announces it and leaves
    the transcript; the send that follows builds a new memory object from
    the transcript, and its request carries (A1,B1) as context. *)
Theorem new_topic_keeps_replaying_history :
  fst (main sample_env (sample_widgets "" (Some NewTopic)) (Some one_turn))
  = Val {| k := 2; messages := [] |}
  /\ In (st_success "Memory cleared for new topic!")
        (page (snd (main sample_env (sample_widgets "" (Some NewTopic))
                      (Some one_turn))))
  /\ transcript (play [sample_action "" (Some NewTopic)] (Some one_turn))
     = chat_history one_turn
  /\ map x_context
         (requests [sample_action "" (Some NewTopic);
                    sample_action "A2" (Some Send)] (Some one_turn))
     = [[HumanMessage "A1"; AIMessage "B1"]].
Proof.
  split; [reflexivity|]. split; [vm_compute; tauto|].
  split; reflexivity.
Qed.

(** ** The keys of the session state after an execution *)

Lemma main_session_keys env w st0 :
  total_messages (session_after (main env w st0))
  = total_messages (initialize_session_state st0)
  /\ selected_persona (session_after (main env w st0)) = Some (w_persona w).
Proof.
  unfold session_after. rewrite main_run. cbn zeta.
  destruct (st_button w ClearChatHistory); [split; reflexivity|].
  destruct (spoken env _); [split; reflexivity|].
  rewrite buttons_run.
  assert (Hs : total_messages (session (started env (ready env w (initialize_session_state st0))))
               = total_messages (initialize_session_state st0)
               /\ selected_persona (session (started env (ready env w (initialize_session_state st0))))
                  = Some (w_persona w)).
  { unfold started. destruct (start_time _); split; reflexivity. }
  destruct (w_clicked w) as [[| | |]|]; try (split; reflexivity).
  - destruct (heard env) as [v| |]; try (split; reflexivity).
    destruct (PyStr.truthy v); [|split; reflexivity].
    unfold ask_then_finish. cbn zeta. destruct (x_answer _); split; reflexivity.
  - destruct (PyStr.truthy _); [|split; reflexivity].
    unfold ask_then_finish. cbn zeta. destruct (x_answer _); exact Hs.
Qed.

Lemma main_no_button_user_input env w st0 :
  w_clicked w = None ->
  w_user_input w = user_input (initialize_session_state st0) ->
  user_input (session_after (main env w st0))
  = user_input (initialize_session_state st0).
Proof.
  intros Hc Hu. unfold session_after. run_main.
  destruct (spoken env _); [exact Hu|].
  rewrite buttons_run, Hc. cbn. exact Hu.
Qed.

Lemma interact_session_keys a st :
  total_messages (session_after (interact a st))
  = total_messages (initialize_session_state st)
  /\ selected_persona (session_after (interact a st))
     = Some (w_persona (a_widgets a))
  /\ user_input (session_after (interact a st))
     = user_input (session_after (main (a_env a) (a_widgets a) st)).
Proof.
  destruct (main_session_keys (a_env a) (a_widgets a) st) as [Ht Hp].
  unfold interact. cbn zeta.
  destruct (fst (main (a_env a) (a_widgets a) st)); try (repeat split; assumption).
  set (s1 := session_after (main (a_env a) (a_widgets a) st)) in *.
  destruct (main_session_keys (a_env_rerun a) (rerun_widgets (a_widgets a) s1) (Some s1))
    as [Ht' Hp'].
  pose proof (main_no_button_user_input (a_env_rerun a)
                (rerun_widgets (a_widgets a) s1) (Some s1) eq_refl eq_refl) as Hu.
  unfold session_after in *. cbn [snd session].
  rewrite Ht', Hp', Hu. cbn [initialize_session_state rerun_widgets w_persona].
  repeat split. exact Ht.
Qed.

Lemma spoken_none env h : speaks_all env h <-> spoken env h = None.
Proof.
  unfold speaks_all. induction h as [|m rest IH]; cbn [spoken].
  - split; [reflexivity | constructor].
  - split.
    + intros H. inversion H as [|? ? [a Ha] Hrest]; subst.
      rewrite Ha. now apply IH.
    + destruct (gTTS env (AI m)) as [e|a] eqn:Ha; [discriminate|].
      intros H. constructor; [now exists a | now apply IH].
Qed.

Lemma spoken_some env h m e :
  In m h -> gTTS env (AI m) = inl e -> spoken env h <> None.
Proof.
  intros Hm He Hs. apply spoken_none in Hs.
  unfold speaks_all in Hs. rewrite Forall_forall in Hs.
  destruct (Hs m Hm) as [a Ha]. congruence.
Qed.

Lemma content_rendered_turns env p h :
  spoken env h = None ->
  content (rendered env p h) = flat_map (turn_content env) h.
Proof.
  induction h as [|m rest IH]; [reflexivity|].
  cbn [spoken rendered flat_map]. unfold turn_content at 1.
  destruct (gTTS env (AI m)) as [e|a]; [discriminate|].
  intros Hs. rewrite content_app, content_app, (IH Hs). reflexivity.
Qed.

Lemma seconds_bounds d : 0 <= seconds d < 86400.
Proof. unfold seconds. apply Z.mod_pos_bound. lia. Qed.

Lemma seconds_wrap d n : seconds (d + n * day) = seconds d.
Proof.
  unfold seconds, day.
  replace (d + n * 86400000000) with (d + (n * 86400) * 1000000) by lia.
  rewrite Z.div_add by lia. rewrite Z.mod_add by lia. reflexivity.
Qed.

(** ** More about the session state *)

(** X1: the key [total_messages] is created with 0 and never written
    again: whatever the user does, it keeps the value the session started
    with, and a fresh session keeps 0 while its transcript grows. *)
Theorem total_messages_is_never_counted (actions : list action)
    (st : option session_state) :
  total_messages (initialize_session_state (play actions st))
  = total_messages (initialize_session_state st)
  /\ total_messages (initialize_session_state (play actions None)) = 0.
Proof.
  assert (H : forall st0,
             total_messages (initialize_session_state (play actions st0))
             = total_messages (initialize_session_state st0)).
  { induction actions as [|a rest IH]; intros st0; cbn [play]; [reflexivity|].
    rewrite IH. cbn [initialize_session_state].
    apply (interact_session_keys a st0). }
  split; [apply H | rewrite H; reflexivity].
Qed.

(** X15: after every execution, however it ends, the key
    [selected_persona] holds the value of the persona select box of that
    execution, so the key is never absent when a later execution reads
    it. *)
Theorem persona_key_follows_select_box (env : environment) (w : widgets)
    (st : option session_state) :
  selected_persona (session_after (main env w st)) = Some (w_persona w)
  /\ get_selected_persona (session_after (main env w st)) = w_persona w.
Proof.
  destruct (main_session_keys env w st) as [_ Hp].
  unfold get_selected_persona. rewrite Hp. split; reflexivity.
Qed.

(** ** More about the statistics panel *)

(** X2: an execution shows the statistics panel exactly when the start
    time was set before the execution began: the execution of the first
    text send does not show it yet, and the execution of the clear button
    still shows it. *)
Theorem statistics_panel_follows_start_time (env : environment) (w : widgets)
    (st : option session_state) :
  shows_statistics (page (snd (main env w st))) = true
  <-> start_time (initialize_session_state st) <> None.
Proof.
  rewrite main_shows_statistics.
  destruct (start_time (initialize_session_state st)); split; congruence.
Qed.

(** X3: the duration of the statistics panel is read from
    [timedelta.seconds], which leaves the days out: a whole number of days
    later the panel shows the same duration, and the minutes shown stay
    below 1440. *)
Theorem duration_wraps_after_a_day (env env' : environment) (s : run_state)
    (n : Z) :
  now env' = now env + n * day ->
  display_chat_statistics env' s = display_chat_statistics env s
  /\ forall t, 0 <= seconds (now env - t) / 60 < 1440
               /\ 0 <= seconds (now env - t) mod 60 < 60.
Proof.
  intros Hn. split.
  - rewrite !display_chat_statistics_run. unfold statistics.
    destruct (start_time (session s)) as [t|]; [|reflexivity].
    rewrite Hn.
    replace (now env + n * day - t) with (now env - t + n * day) by lia.
    rewrite seconds_wrap. reflexivity.
  - intros t. pose proof (seconds_bounds (now env - t)) as Hb. split.
    + split; [apply Z.div_pos; lia | apply Z.div_lt_upper_bound; lia].
    + apply Z.mod_pos_bound. lia.
Qed.

Lemma duration_wraps_after_a_day_witness :
  let s := {| session := three_turns; page := []; exchanges := [] |} in
  now later_env = now sample_env + 1 * day
  /\ display_chat_statistics later_env s = display_chat_statistics sample_env s
  /\ page (snd (display_chat_statistics later_env s))
     = [st_subheader "📊 Chat Statistics"; st_metric "Messages" "3";
        st_metric "Duration" "1m 30s"].
Proof.
  intros s.
  destruct (duration_wraps_after_a_day sample_env later_env s 1 eq_refl)
    as [H _].
  split; [reflexivity|]. split; [exact H | reflexivity].
Defined.

(** X10: the send button sets the start time before it calls the chat
    service, so a first text send on which the service raised leaves the
    start time set and the transcript as it was, and every later execution
    shows the statistics panel. *)
Theorem failed_first_send_starts_timer (env : environment) (w : widgets)
    (st : option session_state) (x : exchange) (e : exn) :
  w_clicked w = Some Send ->
  start_time (initialize_session_state st) = None ->
  In x (exchanges (snd (main env w st))) ->
  x_answer x = inl e ->
  let r := main env w st in
  start_time (session_after r) = Some (now env)
  /\ chat_history (session_after r) = transcript st
  /\ forall env' w',
       shows_statistics (page (snd (main env' w' (Some (session_after r))))) = true.
Proof.
  intros Hc Hn Hx Ha r. subst r.
  assert (Hs : start_time (session_after (main env w st)) = Some (now env)
               /\ chat_history (session_after (main env w st)) = transcript st).
  { destruct (main_spec env w st)
      as [_ _ He _|_ _ _ _ _ He _|input r _ _ x0 Ha0 He _ _
         |input e0 _ _ x0 Ha0 He Hst _ _];
      rewrite He in Hx; cbn [In] in Hx; try contradiction;
      destruct Hx as [<-|[]]; [congruence|].
    rewrite Hst. unfold start_after. rewrite Hc, Hn. split; reflexivity. }
  destruct Hs as [Hs Hh]. repeat split; trivial.
  intros env' w'. rewrite main_shows_statistics.
  cbn [initialize_session_state]. now rewrite Hs.
Qed.

Lemma failed_first_send_starts_timer_witness :
  let w := sample_widgets "hello" (Some Send) in
  let r := main failing_env w None in
  start_time (session_after r) = Some (now failing_env)
  /\ chat_history (session_after r) = []
  /\ shows_statistics
       (page (snd (main sample_env (sample_widgets "hello" None)
                     (Some (session_after r))))) = true.
Proof.
  intros w r.
  assert (Hx : exists x, exchanges (snd r) = [x]
                         /\ x_answer x
                            = inl {| class_of := OtherException;
                                     str_of := "503 Service Unavailable" |})
    by (eexists; split; vm_compute; reflexivity).
  destruct Hx as (x & Hx & Ha).
  destruct (failed_first_send_starts_timer failing_env w None x
              {| class_of := OtherException; str_of := "503 Service Unavailable" |}
              eq_refl eq_refl)
    as (H1 & H2 & H3).
  - fold r. rewrite Hx. left. reflexivity.
  - exact Ha.
  - exact (conj H1 (conj H2 (H3 sample_env (sample_widgets "hello" None)))).
Defined.

(** ** More about voice input *)

(** X4: [main] calls [get_voice_input] outside its [try]: an exception
    that [get_voice_input] lets through, such as a microphone that cannot
    be opened, ends the execution as an uncaught exception, with no chat
    request and with the transcript and the start time as they were. *)
Theorem voice_exception_escapes_main (env : environment) (w : widgets)
    (st : option session_state) (e : exn) :
  w_clicked w = Some UseVoiceInput ->
  speaks_all env (transcript st) ->
  (forall s, fst (get_voice_input env s) = Raise e) ->
  let r := main env w st in
  fst r = Raise e
  /\ exchanges (snd r) = []
  /\ chat_history (session_after r) = transcript st
  /\ start_time (session_after r) = start_time (initialize_session_state st).
Proof.
  intros Hc Hs Hv r. subst r.
  apply spoken_none in Hs. unfold transcript in *.
  specialize (Hv {| session := initialize_session_state st;
                    page := []; exchanges := [] |}).
  rewrite get_voice_input_run in Hv. cbn [fst] in Hv.
  unfold session_after. run_main.
  cbn [chat_history set_selected_persona]. rewrite Hs.
  rewrite buttons_run, Hc, Hv. repeat split.
Qed.

Lemma voice_exception_escapes_main_witness :
  let w := sample_widgets "" (Some UseVoiceInput) in
  let e := {| class_of := OtherException;
              str_of := "No Default Input Device Available" |} in
  let r := main deaf_env w (Some three_turns) in
  fst r = Raise e
  /\ exchanges (snd r) = []
  /\ chat_history (session_after r) = chat_history three_turns.
Proof.
  intros w e r.
  destruct (voice_exception_escapes_main deaf_env w (Some three_turns) e eq_refl)
    as (H1 & H2 & H3 & _).
  - repeat constructor; eexists; reflexivity.
  - intros s. reflexivity.
  - exact (conj H1 (conj H2 H3)).
Defined.

(** X5: with the microphone open, [get_voice_input] first prompts the user
    to speak; on each of the three failures it catches it then writes
    exactly one message, a warning for a timeout and for unintelligible
    audio and an error with the text of the exception for a failed request;
    on success it writes nothing more. *)
Theorem get_voice_input_reports_failure (env : environment) (s : run_state) :
  microphone env = None ->
  (forall e, recognition env = inl e -> class_of e <> OtherException ->
     exists msg,
       page (snd (get_voice_input env s))
       = (page s ++ [st_info "🎙️ Speak now..."; msg])%list
       /\ match class_of e with
          | WaitTimeoutError =>
              msg = st_warning "⏳ Listening timed out. Please try again."
          | UnknownValueError =>
              msg = st_warning "⚠️ Could not understand the audio. Please try again."
          | _ =>
              msg = st_error ("⚠️ Could not request results from the speech recognition service: "
                              ++ str_of e)
          end)
  /\ (forall text, recognition env = inr text ->
        page (snd (get_voice_input env s))
        = (page s ++ [st_info "🎙️ Speak now..."])%list).
Proof.
  intros Hm. rewrite get_voice_input_run. unfold show, voice_page.
  cbn [snd page]. rewrite Hm. split.
  - intros e He Hc. rewrite He.
    destruct (class_of e); try (now elim Hc); eexists; split; reflexivity.
  - intros text Ht. rewrite Ht. reflexivity.
Qed.

Lemma get_voice_input_reports_failure_witness :
  let s := {| session := three_turns; page := []; exchanges := [] |} in
  microphone silent_env = None
  /\ page (snd (get_voice_input silent_env s))
     = [st_info "🎙️ Speak now...";
        st_warning "⏳ Listening timed out. Please try again."].
Proof.
  intros s.
  destruct (get_voice_input_reports_failure silent_env s eq_refl) as [H _].
  destruct (H {| class_of := WaitTimeoutError;
                 str_of := "listening timed out while waiting for phrase to start" |}
              eq_refl) as (msg & Hp & Hmsg).
  - discriminate.
  - cbn [class_of] in Hmsg. subst msg. exact (conj eq_refl Hp).
Defined.

(** X11: the voice path tests the recognised text for emptiness only and
    does not strip it: a recognised text that is not empty, even one of
    blanks only, is sent to the chat service as it is. *)
Theorem voice_input_is_not_stripped (env : environment) (w : widgets)
    (st : option session_state) (v : string) :
  w_clicked w = Some UseVoiceInput ->
  speaks_all env (transcript st) ->
  (forall s, fst (get_voice_input env s) = Val v) ->
  v <> "" ->
  exists x, exchanges (snd (main env w st)) = [x] /\ x_input x = v.
Proof.
  intros Hc Hs Hv Hne.
  apply spoken_none in Hs. unfold transcript in *.
  specialize (Hv {| session := initialize_session_state st;
                    page := []; exchanges := [] |}).
  rewrite get_voice_input_run in Hv. cbn [fst] in Hv.
  assert (Ht : PyStr.truthy v = true) by (destruct v; [now elim Hne | reflexivity]).
  run_main. cbn [chat_history set_selected_persona]. rewrite Hs.
  rewrite buttons_run, Hc, Hv, Ht. unfold ask_then_finish. cbn zeta.
  destruct (x_answer _); eexists; split; reflexivity.
Qed.

Lemma voice_input_is_not_stripped_witness :
  let w := sample_widgets "" (Some UseVoiceInput) in
  PyStr.strip " " = ""
  /\ exists x, exchanges (snd (main blank_env w (Some three_turns))) = [x]
               /\ x_input x = " ".
Proof.
  intros w. split; [reflexivity|].
  apply (voice_input_is_not_stripped blank_env w (Some three_turns) " " eq_refl).
  - repeat constructor; eexists; reflexivity.
  - intros s. reflexivity.
  - discriminate.
Defined.

(** ** More about the display of the history *)

(** X6: the history is displayed, and its audio synthesised, before the
    buttons are looked at: when the speech synthesiser raises on a stored
    turn, every execution but that of the clear button ends with an
    uncaught exception before it handles its button, with no chat request
    and with the transcript and the start time as they were. *)
Theorem speech_synthesis_failure_blocks_buttons (env : environment)
    (w : widgets) (st : option session_state) (m : message) (e : exn) :
  In m (transcript st) ->
  gTTS env (AI m) = inl e ->
  w_clicked w <> Some ClearChatHistory ->
  let r := main env w st in
  (exists e', fst r = Raise e')
  /\ exchanges (snd r) = []
  /\ chat_history (session_after r) = transcript st
  /\ start_time (session_after r) = start_time (initialize_session_state st).
Proof.
  intros Hm He Hc r. subst r.
  pose proof (spoken_some env _ m e Hm He) as Hs. unfold transcript in *.
  assert (Hb : st_button w ClearChatHistory = false).
  { unfold st_button. destruct (w_clicked w) as [[| | |]|]; trivial. now elim Hc. }
  unfold session_after. rewrite main_run. cbn zeta. rewrite Hb.
  cbn [chat_history set_selected_persona].
  destruct (spoken env _) as [e'|]; [|now elim Hs].
  repeat split. now exists e'.
Qed.

Lemma speech_synthesis_failure_blocks_buttons_witness :
  let w := sample_widgets "A2" (Some Send) in
  let r := main mute_env w (Some one_turn) in
  (exists e', fst r = Raise e')
  /\ exchanges (snd r) = []
  /\ chat_history (session_after r) = chat_history one_turn.
Proof.
  intros w r.
  destruct (speech_synthesis_failure_blocks_buttons mute_env w (Some one_turn)
              {| human := "A1"; AI := "B1" |}
              {| class_of := OtherException; str_of := "Failed to connect" |})
    as (H1 & H2 & H3 & _).
  - left. reflexivity.
  - reflexivity.
  - discriminate.
  - exact (conj H1 (conj H2 H3)).
Defined.

(** X13: when the speech synthesiser answers for every stored turn, an
    execution started by no button or by the send button shows, as text
    and audio, exactly the stored turns in their order: for each one the
    human text, the assistant text and the audio of the assistant text. *)
Theorem page_shows_every_turn_in_order (env : environment) (w : widgets)
    (st : option session_state) :
  speaks_all env (transcript st) ->
  w_clicked w = None \/ w_clicked w = Some Send ->
  content (page (snd (main env w st))) = flat_map (turn_content env) (transcript st).
Proof.
  intros Hs Hc. apply spoken_none in Hs.
  assert (Hb : st_button w ClearChatHistory = false)
    by (unfold st_button; destruct Hc as [-> | ->]; reflexivity).
  rewrite (content_main env w st Hb), Hs.
  rewrite (content_rendered_turns env Default _ Hs).
  unfold button_content. destruct Hc as [-> | ->]; apply app_nil_r.
Qed.

Lemma page_shows_every_turn_in_order_witness :
  let w := sample_widgets "" None in
  speaks_all sample_env (transcript (Some three_turns))
  /\ content (page (snd (main sample_env w (Some three_turns))))
     = [st_info "A1"; st_success "B1"; st_audio "mp3 of B1" "audio/mp3";
        st_info "A2"; st_success "B2"; st_audio "mp3 of B2" "audio/mp3";
        st_info "A3"; st_success "B3"; st_audio "mp3 of B3" "audio/mp3"].
Proof.
  intros w.
  assert (Hs : speaks_all sample_env (transcript (Some three_turns)))
    by (repeat constructor; eexists; reflexivity).
  split; [exact Hs|].
  rewrite (page_shows_every_turn_in_order sample_env w (Some three_turns) Hs
             (or_introl eq_refl)).
  reflexivity.
Defined.

(** ** More about reruns, requests and buttons *)

Lemma rerun_cases a st :
  fst (main (a_env a) (a_widgets a) st) = RerunException
  <-> (w_clicked (a_widgets a) = Some ClearChatHistory \/ successful_send a st).
Proof.
  unfold successful_send.
  destruct (main_spec (a_env a) (a_widgets a) st)
    as [Hc _ _ Hf|Hc _ _ _ _ He Hf|input r _ _ x0 Ha0 He _ Hf
       |input e _ Hi x0 Ha0 He _ Hf _].
  - split; auto.
  - split; [contradiction|]. intros [H|(x & r & Hx & _)]; [contradiction|].
    rewrite He in Hx. discriminate.
  - split; [|trivial]. intros _. right. exists x0, r. split; assumption.
  - rewrite Hf. split; [discriminate|].
    intros [H|(x & r & Hx & Ha)].
    + destruct (send_input_button _ _ _ Hi); congruence.
    + rewrite He in Hx. injection Hx as <-. congruence.
Qed.

(** X7: [st.rerun()] is reached exactly by the clear button and by a send
    that the chat service answered; the rerun it starts never asks for
    another rerun, so a user action takes one execution or two. *)
Theorem rerun_never_reruns (a : action) (st : option session_state) :
  (fst (main (a_env a) (a_widgets a) st) = RerunException
   <-> (w_clicked (a_widgets a) = Some ClearChatHistory \/ successful_send a st))
  /\ fst (interact a st) <> RerunException
  /\ (1 <= List.length (executions a st) <= 2)%nat
  /\ Forall (fun r => exchanges (snd r) = []) (tl (executions a st)).
Proof.
  split; [apply rerun_cases|].
  unfold interact, executions. cbn zeta.
  destruct (fst (main (a_env a) (a_widgets a) st)) eqn:Hf;
    cbn [fst List.length tl];
    try (split; [congruence | split; [lia | constructor]]).
  set (s1 := session_after (main (a_env a) (a_widgets a) st)).
  destruct (main_no_button (a_env_rerun a) (rerun_widgets (a_widgets a) s1)
              (Some s1) eq_refl) as (_ & _ & Hx & Hr).
  split; [exact Hr|]. split; [lia|]. constructor; [exact Hx | constructor].
Qed.

(** X12: an execution puts at most one request to the chat service, and
    none unless the send button or the voice button was pressed; the input
    of a request is never the empty string, and its prompt is built for
    the model and the persona the widgets select. *)
Theorem at_most_one_request (env : environment) (w : widgets)
    (st : option session_state) :
  (List.length (exchanges (snd (main env w st))) <= 1)%nat
  /\ forall x, In x (exchanges (snd (main env w st))) ->
       x_input x <> ""
       /\ (w_clicked w = Some Send \/ w_clicked w = Some UseVoiceInput)
       /\ x_answer x = groq env (w_model w) (x_prompt x).
Proof.
  destruct (main_spec env w st)
    as [_ _ He _|_ _ _ _ _ He _|input r _ Hi x0 _ He _ _|input e _ Hi x0 _ He _ _ _];
    rewrite He; cbn [List.length In]; (split; [lia|]); intros x Hx;
    try contradiction; destruct Hx as [<-|[]]; repeat split;
    try apply (send_input_not_empty _ _ _ Hi);
    apply (send_input_button _ _ _ Hi).
Qed.

(** X14: the execution of the new topic button leaves the session state
    exactly as an execution of the same widgets without a button leaves
    it, and puts no request: the button changes the page only. *)
Theorem new_topic_changes_no_state (env : environment) (w : widgets)
    (st : option session_state) :
  w_clicked w = Some NewTopic ->
  session_after (main env w st) = session_after (main env (without_button w) st)
  /\ exchanges (snd (main env w st)) = [].
Proof.
  intros Hc. unfold session_after. rewrite !main_run. cbn zeta.
  unfold st_button. rewrite Hc. cbn [without_button w_clicked button_eqb w_persona].
  destruct (spoken env _); [split; reflexivity|].
  rewrite !buttons_run, Hc. cbn [without_button w_clicked]. split; reflexivity.
Qed.

Lemma new_topic_changes_no_state_witness :
  let w := sample_widgets "" (Some NewTopic) in
  session_after (main sample_env w (Some three_turns))
  = session_after (main sample_env (without_button w) (Some three_turns))
  /\ exchanges (snd (main sample_env w (Some three_turns))) = [].
Proof.
  intros w.
  exact (new_topic_changes_no_state sample_env w (Some three_turns) eq_refl).
Defined.

(** X8: a text send that the chat service answered does not empty the
    text area: after the interaction the key [user_input] still holds the
    sent text, which is also, unstripped, the human text of the new last
    turn. *)
Theorem text_area_keeps_sent_text (a : action) (st : option session_state) :
  w_clicked (a_widgets a) = Some Send ->
  successful_send a st ->
  let after := session_after (interact a st) in
  user_input after = w_user_input (a_widgets a)
  /\ exists response,
       chat_history after
       = (transcript st
          ++ [{| human := w_user_input (a_widgets a); AI := response |}])%list.
Proof.
  intros Hc (x & response & Hx & Ha) after. subst after.
  destruct (interact_session_keys a st) as (_ & _ & ->).
  destruct (interact_main a st) as (-> & _ & _).
  destruct (main_spec (a_env a) (a_widgets a) st)
    as [_ _ He _|_ _ _ _ _ He _|input r _ Hi x0 _ He Hst _|input e _ _ x0 Ha0 He _ _ _];
    rewrite He in Hx; try discriminate; injection Hx as <-; [|congruence].
  assert (input = w_user_input (a_widgets a)) as ->.
  { unfold send_input in Hi. rewrite Hc in Hi.
    destruct (PyStr.truthy _); congruence. }
  rewrite Hst. split; [reflexivity|]. exists r. reflexivity.
Qed.

Lemma text_area_keeps_sent_text_witness :
  let a := sample_action "  hello " (Some Send) in
  let after := session_after (interact a (Some one_turn)) in
  user_input after = "  hello "
  /\ exists response,
       chat_history after
       = [{| human := "A1"; AI := "B1" |};
          {| human := "  hello "; AI := response |}].
Proof.
  intros a after.
  apply (text_area_keeps_sent_text a (Some one_turn) eq_refl).
  eexists; eexists; split; vm_compute; reflexivity.
Defined.

(** X9: after the interaction of the clear button, rerun included, the
    page shows no text or audio of a turn and no statistics panel, the
    text area is empty, and no request was put to the chat service. *)
Theorem clear_leaves_empty_page (a : action) (st : option session_state) :
  w_clicked (a_widgets a) = Some ClearChatHistory ->
  let r := interact a st in
  content (page (snd r)) = []
  /\ shows_statistics (page (snd r)) = false
  /\ user_input (session_after r) = ""
  /\ exchanges (snd r) = [].
Proof.
  intros Hc r. subst r.
  destruct (interact_session_keys a st) as (_ & _ & Hu).
  destruct (interact_main a st) as (_ & _ & Hx).
  rewrite Hu, Hx. clear Hu Hx.
  assert (Hm : fst (main (a_env a) (a_widgets a) st) = RerunException
               /\ session_after (main (a_env a) (a_widgets a) st)
                  = cleared (set_selected_persona (w_persona (a_widgets a))
                               (initialize_session_state st))
               /\ exchanges (snd (main (a_env a) (a_widgets a) st)) = []).
  { unfold session_after. run_main. repeat split. }
  destruct Hm as (Hf & Hs & He).
  unfold interact. cbn zeta. rewrite Hf. cbn [snd page].
  rewrite Hs, He.
  split; [|split; [|split; reflexivity]].
  - rewrite content_main by reflexivity. reflexivity.
  - rewrite main_shows_statistics. reflexivity.
Qed.

Lemma clear_leaves_empty_page_witness :
  let a := sample_action "some text" (Some ClearChatHistory) in
  let r := interact a (Some three_turns) in
  content (page (snd r)) = []
  /\ shows_statistics (page (snd r)) = false
  /\ user_input (session_after r) = ""
  /\ exchanges (snd r) = [].
Proof.
  intros a r.
  exact (clear_leaves_empty_page a (Some three_turns) eq_refl).
Defined.

Lemma interact_appends a st :
  w_clicked (a_widgets a) <> Some ClearChatHistory ->
  exists added,
    chat_history (session_after (interact a st)) = (transcript st ++ added)%list
    /\ (List.length added <= 1)%nat.
Proof.
  intros Hc. destruct (interact_main a st) as (-> & _ & _). unfold transcript.
  destruct (main_spec (a_env a) (a_widgets a) st)
    as [Hc' _ _ _|_ _ Hh _ _ _ _|input r _ _ x0 _ _ Hst _|input e _ _ x0 _ _ Hst _ _].
  - contradiction.
  - exists []. rewrite Hh, app_nil_r. split; [reflexivity | cbn; lia].
  - exists [{| human := input; AI := r |}]. rewrite Hst.
    split; [reflexivity | cbn; lia].
  - exists []. rewrite Hst, app_nil_r. split; [reflexivity | cbn; lia].
Qed.

(** X16: in a session in which the clear button is never pressed the
    transcript only grows: after any number of user actions it is the
    transcript the session started with, followed by at most one new turn
    for each action. *)
Theorem transcript_only_grows_without_clear (actions : list action)
    (st : option session_state) :
  Forall (fun a => w_clicked (a_widgets a) <> Some ClearChatHistory) actions ->
  exists added,
    transcript (play actions st) = (transcript st ++ added)%list
    /\ (List.length added <= List.length actions)%nat.
Proof.
  revert st. induction actions as [|a rest IH]; intros st Hall; cbn [play].
  - exists []. rewrite app_nil_r. split; [reflexivity | cbn; lia].
  - inversion Hall as [|? ? Ha Hrest]; subst.
    destruct (interact_appends a st Ha) as (add1 & H1 & L1).
    destruct (IH (Some (session_after (interact a st))) Hrest) as (add2 & H2 & L2).
    exists (add1 ++ add2)%list. rewrite H2. unfold transcript at 1.
    cbn [initialize_session_state]. rewrite H1, <- app_assoc.
    split; [reflexivity|]. rewrite length_app. cbn [List.length]. lia.
Qed.

Lemma transcript_only_grows_without_clear_witness :
  let actions := [sample_action "A2" (Some Send);
                  sample_action "" (Some NewTopic);
                  sample_action "   " (Some Send);
                  sample_action "" (Some UseVoiceInput)] in
  List.length (transcript (play actions (Some one_turn))) = 3%nat
  /\ exists added,
       transcript (play actions (Some one_turn))
       = (transcript (Some one_turn) ++ added)%list
       /\ (List.length added <= List.length actions)%nat.
Proof.
  intros actions. split; [reflexivity|].
  apply (transcript_only_grows_without_clear actions (Some one_turn)).
  repeat constructor; discriminate.
Defined.

(** ** More about the start time *)

(** X18: a start time that is set is changed by the clear button only:
    any other execution, a later text send too, leaves it as it was, so
    the duration is counted from the first text send after a clear. *)
Theorem start_time_is_set_once (env : environment) (w : widgets)
    (st : option session_state) (t : datetime) :
  start_time (initialize_session_state st) = Some t ->
  w_clicked w <> Some ClearChatHistory ->
  start_time (session_after (main env w st)) = Some t.
Proof.
  intros Ht Hc.
  destruct (main_spec env w st)
    as [Hc' _ _ _|_ _ _ Hs _ _ _|input r _ _ x0 _ _ Hst _|input e _ _ x0 _ _ Hst _ _].
  - contradiction.
  - now rewrite Hs.
  - rewrite Hst. cbn. unfold start_after. rewrite Ht. now destruct (w_clicked w) as [[]|].
  - rewrite Hst. cbn. unfold start_after. rewrite Ht. now destruct (w_clicked w) as [[]|].
Qed.

Lemma start_time_is_set_once_witness :
  start_time (session_after
                (main later_env (sample_widgets "A4" (Some Send)) (Some three_turns)))
  = Some 0.
Proof.
  apply (start_time_is_set_once later_env (sample_widgets "A4" (Some Send))
           (Some three_turns) 0 eq_refl).
  discriminate.
Defined.

(** X17: when the start time is set, the page of every execution carries
    the metric Messages with the number of stored turns, human and
    assistant text counted as one, as the session held them when the
    execution began. *)
Theorem messages_metric_counts_turns (env : environment) (w : widgets)
    (st : option session_state) (t : datetime) :
  start_time (initialize_session_state st) = Some t ->
  In (st_metric "Messages"
        (PyStr.str_int (Z.of_nat (List.length (transcript st)))))
     (page (snd (main env w st))).
Proof.
  intros Ht. unfold transcript.
  assert (Hs : In (st_metric "Messages"
                     (PyStr.str_int
                        (Z.of_nat (List.length
                                     (chat_history (initialize_session_state st))))))
                  (heading
                   ++ statistics env
                        (set_selected_persona (w_persona w)
                           (initialize_session_state st)))).
  { apply in_or_app; right. unfold statistics.
    cbn [start_time set_selected_persona chat_history]. rewrite Ht.
    right; left. reflexivity. }
  destruct (st_button w ClearChatHistory) eqn:Hb.
  - rewrite main_run. cbn zeta. rewrite Hb. exact Hs.
  - destruct (main_page env w st Hb) as (below & -> & _).
    apply in_or_app; left. unfold front.
    rewrite app_assoc. apply in_or_app; left. exact Hs.
Qed.

Lemma messages_metric_counts_turns_witness :
  In (st_metric "Messages" "3")
     (page (snd (main sample_env (sample_widgets "A4" (Some Send))
                   (Some three_turns)))).
Proof.
  exact (messages_metric_counts_turns sample_env (sample_widgets "A4" (Some Send))
           (Some three_turns) 0 eq_refl).
Defined.
